(** * Detection service (backend.py): request lifecycle and file hand-off

    A shallow embedding of [backend.py]: the upload endpoint [predict_image],
    the inference wrapper [run_detection], and the parts of Python's [str] and
    [os.path] they rely on.  Effects (filesystem, identifier generation, the
    calls made to the model) are threaded through an explicit world; Python
    exceptions are the left summand of the result. *)

From Stdlib Require Import Bool Arith ZArith NArith QArith Lia List.
From Stdlib Require Import Ascii String DecimalString.
From Stdlib Require DecimalNat.
Import ListNotations.

Local Open Scope string_scope.
Local Open Scope Z_scope.

(* ================================================================== *)
(** ** Python strings *)
(* ================================================================== *)

Module PyStr.

(** [str.lower] on one character.  Strings are byte strings here (UTF-8
    for text outside ASCII): only ASCII upper-case letters are mapped,
    every other byte is kept.  No character outside ASCII lower-cases to a
    letter of the suffixes compared below, so the comparisons agree with
    Python's on every name. *)
Definition lower_ascii (c : ascii) : ascii :=
  let n := N_of_ascii c in
  if ((65 <=? n) && (n <=? 90))%N then ascii_of_N (n + 32) else c.

(** [s.lower()] *)
Fixpoint lower (s : string) : string :=
  match s with
  | EmptyString => EmptyString
  | String c s' => String (lower_ascii c) (lower s')
  end.

(** [s[:n]] for [0 <= n] *)
Fixpoint take (n : nat) (s : string) : string :=
  match n, s with
  | O, _ => EmptyString
  | S _, EmptyString => EmptyString
  | S n', String c s' => String c (take n' s')
  end.

(** [s[n:]] for [0 <= n] *)
Fixpoint drop (n : nat) (s : string) : string :=
  match n, s with
  | O, _ => s
  | S _, EmptyString => EmptyString
  | S n', String _ s' => drop n' s'
  end.

(** [s[i:i+1]], the empty string when [i] is out of range *)
Definition char_at (s : string) (i : Z) : string :=
  take 1 (drop (Z.to_nat i) s).

(** [s.rfind(c)] for a one-character needle, scanning [s] placed at
    offset [i]: the highest index holding [c], or [-1]. *)
Fixpoint rfind_from (c : ascii) (s : string) (i : Z) : Z :=
  match s with
  | EmptyString => -1
  | String a s' =>
      let r := rfind_from c s' (i + 1) in
      if 0 <=? r then r else if Ascii.eqb a c then i else -1
  end.

Definition rfind (c : ascii) (s : string) : Z := rfind_from c s 0.

(** [s.startswith(p)] *)
Fixpoint startswith (s p : string) {struct p} : bool :=
  match p, s with
  | EmptyString, _ => true
  | String _ _, EmptyString => false
  | String a p', String b s' => Ascii.eqb a b && startswith s' p'
  end.

(** [s.endswith(suf)] *)
Definition endswith (s suf : string) : bool :=
  (String.length suf <=? String.length s)%nat
  && String.eqb (drop (String.length s - String.length suf) s) suf.

(** [s.endswith((suf1, suf2, ...))] with a tuple of suffixes *)
Definition endswith_any (s : string) (sufs : list string) : bool :=
  existsb (endswith s) sufs.

(** [s.lstrip(c)] for a one-character set *)
Fixpoint lstrip (c : ascii) (s : string) : string :=
  match s with
  | EmptyString => EmptyString
  | String a s' => if Ascii.eqb a c then lstrip c s' else s
  end.

(** Truthiness of a string: [bool(s)] *)
Definition truthy (s : string) : bool := negb (String.eqb s "").

End PyStr.

(* ================================================================== *)
(** ** os.path (posixpath) *)
(* ================================================================== *)

Module OsPath.
Import PyStr.

Definition sep : ascii := "/"%char.
Definition extsep : ascii := "."%char.

(** [os.path.join(a, b)] with two components *)
Definition join (a b : string) : string :=
  if startswith b (String sep "") then b
  else if negb (truthy a) || endswith a (String sep "") then a ++ b
  else a ++ String sep "" ++ b.

(** [os.path.basename(p)]: [i = p.rfind('/') + 1; return p[i:]] *)
Definition basename (p : string) : string :=
  let i := rfind sep p + 1 in
  drop (Z.to_nat i) p.

(** The [while filenameIndex < dotIndex] loop of [genericpath._splitext],
    with [n = dotIndex - filenameIndex] iterations left: leading dots of
    the file name are skipped; the first other character before the last
    dot makes that dot the start of the extension. *)
Fixpoint splitext_loop (p : string) (dotIndex : Z) (n : nat) : string * string :=
  match n with
  | O => (p, "")
  | S n' =>
      let filenameIndex := dotIndex - Z.of_nat n in
      if negb (String.eqb (char_at p filenameIndex) (String extsep ""))
      then (take (Z.to_nat dotIndex) p, drop (Z.to_nat dotIndex) p)
      else splitext_loop p dotIndex n'
  end.

(** [os.path.splitext(p)] *)
Definition splitext (p : string) : string * string :=
  let sepIndex := rfind sep p in
  let dotIndex := rfind extsep p in
  if sepIndex <? dotIndex
  then splitext_loop p dotIndex (Z.to_nat (dotIndex - (sepIndex + 1)))
  else (p, "").

End OsPath.

Import PyStr OsPath.

(* ================================================================== *)
(** ** Exceptions, filesystem, model and world *)
(* ================================================================== *)

(** The exceptions the service sees: FastAPI's [HTTPException], and any
    other [Exception], kept by the text [str(e)] gives for it. *)
Inductive Exn : Type :=
| HTTPException (status_code : nat) (detail : string)
| PyException (text : string).

(** The filesystem: the paths that exist, in the order a directory scan
    reports them.  File kinds and contents are not tracked; whatever makes
    the operating system refuse an operation is a fault of [Env]. *)
Definition FS : Type := list string.

(** The arguments of one [model.predict(source, save=, conf=, project=,
    name=, exist_ok=)] call. *)
Record PredictCall : Type := mkPredictCall {
  pc_source : string;
  pc_save : bool;
  pc_conf : Q;
  pc_project : string;
  pc_name : string;
  pc_exist_ok : bool
}.

(** The loaded YOLO model, an opaque collaborator: [predict] may change the
    filesystem in any way and either raises (with the text of the
    exception) or returns the list of results, each with its [save_dir]
    attribute when it has one. *)
Record Model : Type := mkModel {
  predict : PredictCall -> FS -> (string + list (option string)) * FS
}.

(** What the handler does to the outside, in order. *)
Inductive Event : Type :=
| EvWrite (path : string)
| EvMakedirs (path : string)
| EvPredict (call : PredictCall)
| EvRemove (path : string).

(** The environment of the process: the identifiers [uuid.uuid4()] hands
    out, the faults of the operating system, and two renderings that are
    library behaviour ([str] of an [HTTPException], and the iteration
    order of the set literal joined into the 400 message). *)
Record Env : Type := mkEnv {
  uuid4 : nat -> string;
  write_fault : string -> option (bool * string);
  makedirs_fault : string -> option string;
  listdir_fault : string -> option string;
  remove_fault : string -> option string;
  response_fault : string -> option string;
  http_str : nat -> string -> string;
  allowed_joined : string
}.

Record World : Type := mkWorld {
  fs : FS;
  draws : nat;
  trace : list Event
}.

Module Fs.

Definition exists_ (f : FS) (p : string) : bool := existsb (String.eqb p) f.

Definition add (p : string) (f : FS) : FS :=
  if exists_ f p then f else (f ++ [p])%list.

Definition remove (p : string) (f : FS) : FS :=
  filter (fun q => negb (String.eqb p q)) f.

(** The proper ancestors of [p]: every non-empty prefix that ends just
    before a separator, shortest first. *)
Fixpoint ancestors_from (acc p : string) : list string :=
  match p with
  | EmptyString => []
  | String c p' =>
      if Ascii.eqb c sep
      then ((if truthy acc then [acc] else [])
              ++ ancestors_from (acc ++ String c "") p')%list
      else ancestors_from (acc ++ String c "") p'
  end.

Definition ancestors (p : string) : list string := ancestors_from "" p.

Definition add_all (ps : list string) (f : FS) : FS :=
  fold_left (fun g p => add p g) ps f.

(** The entry name of [p] inside directory [d], when [p] lies directly
    in [d]. *)
Definition entry_in (d p : string) : option string :=
  let pre := if endswith d (String sep "") then d else d ++ String sep "" in
  if startswith p pre
  then let n := drop (String.length pre) p in
       if truthy n && (rfind sep n <? 0) then Some n else None
  else None.

Definition entries (f : FS) (d : string) : list string :=
  flat_map (fun p => match entry_in d p with Some n => [n] | None => [] end) f.

End Fs.

(* ================================================================== *)
(** ** The effect monad: world passing with exceptions *)
(* ================================================================== *)

Definition M (A : Type) : Type := World -> (Exn + A) * World.

Definition ret {A} (a : A) : M A := fun w => (inr a, w).

Definition bind {A B} (c : M A) (k : A -> M B) : M B :=
  fun w => match c w with
           | (inr a, w') => k a w'
           | (inl e, w') => (inl e, w')
           end.

Definition raise {A} (e : Exn) : M A := fun w => (inl e, w).

(** [try: c  except Exception as e: h e] *)
Definition try_except {A} (c : M A) (h : Exn -> M A) : M A :=
  fun w => match c w with
           | (inr a, w') => (inr a, w')
           | (inl e, w') => h e w'
           end.

(** [try: c  finally: fin]: [fin] runs on every exit; an exception of
    [fin] replaces the outcome of [c]. *)
Definition try_finally {A} (c : M A) (fin : M unit) : M A :=
  fun w => match c w with
           | (r, w') => match fin w' with
                        | (inr _, w'') => (r, w'')
                        | (inl e, w'') => (inl e, w'')
                        end
           end.

Declare Scope py_scope.
Delimit Scope py_scope with py.
Notation "x <- c ;; k" := (bind c (fun x => k))
  (at level 100, c at next level, right associativity) : py_scope.
Notation "c ;; k" := (bind c (fun _ => k))
  (at level 100, right associativity) : py_scope.
Local Open Scope py_scope.

Definition log_event (e : Event) : M unit :=
  fun w => (inr tt, mkWorld (fs w) (draws w) (trace w ++ [e])%list).

Definition set_fs (f : FS) : M unit :=
  fun w => (inr tt, mkWorld f (draws w) (trace w)).

Definition get_fs : M FS := fun w => (inr (fs w), w).

(* ================================================================== *)
(** ** Operating-system and library calls *)
(* ================================================================== *)

Section Calls.
Variable env : Env.

(** [str(e)] *)
Definition str (e : Exn) : string :=
  match e with
  | HTTPException status_code detail => http_str env status_code detail
  | PyException text => text
  end.

(** [str(uuid.uuid4())]: the next identifier of the supply *)
Definition uuid4_str : M string :=
  fun w => (inr (uuid4 env (draws w)), mkWorld (fs w) (S (draws w)) (trace w)).

(** [os.path.exists(p)] *)
Definition path_exists (p : string) : M bool :=
  fun w => (inr (Fs.exists_ (fs w) p), w).

(** [with open(p, "wb") as buffer: shutil.copyfileobj(src, buffer)].
    A fault says whether [open] had created the file before the failure. *)
Definition write_file (p : string) : M unit :=
  log_event (EvWrite p) ;;
  f <- get_fs ;;
  match write_fault env p with
  | None => set_fs (Fs.add p f)
  | Some (created, text) =>
      set_fs (if created then Fs.add p f else f) ;;
      raise (PyException text)
  end.

(** [os.makedirs(p, exist_ok=True)] *)
Definition makedirs (p : string) : M unit :=
  log_event (EvMakedirs p) ;;
  f <- get_fs ;;
  match makedirs_fault env p with
  | None => set_fs (Fs.add_all (Fs.ancestors p ++ [p]) f)
  | Some text => raise (PyException text)
  end.

(** [os.listdir(d)] *)
Definition listdir (d : string) : M (list string) :=
  f <- get_fs ;;
  match listdir_fault env d with
  | Some text => raise (PyException text)
  | None =>
      if Fs.exists_ f d then ret (Fs.entries f d)
      else raise (PyException
                    ("[Errno 2] No such file or directory: '" ++ d ++ "'"))
  end.

(** [os.remove(p)] *)
Definition os_remove (p : string) : M unit :=
  log_event (EvRemove p) ;;
  f <- get_fs ;;
  match remove_fault env p with
  | Some text => raise (PyException text)
  | None =>
      if Fs.exists_ f p then set_fs (Fs.remove p f)
      else raise (PyException
                    ("[Errno 2] No such file or directory: '" ++ p ++ "'"))
  end.

(** [m.predict(...)] *)
Definition call_predict (m : Model) (call : PredictCall)
  : M (list (option string)) :=
  log_event (EvPredict call) ;;
  f <- get_fs ;;
  match predict m call f with
  | (inl text, f') => set_fs f' ;; raise (PyException text)
  | (inr results_list, f') => set_fs f' ;; ret results_list
  end.

End Calls.

(* ================================================================== *)
(** ** backend.py *)
(* ================================================================== *)

(** An uploaded file: [file.filename] and the bytes of [file.file]. *)
Record UploadFile : Type := mkUploadFile {
  filename : string;
  content : string
}.

(** [FileResponse(path, media_type=...)], sent with status 200. *)
Record FileResponse : Type := mkFileResponse {
  path : string;
  media_type : string
}.

Definition WEIGHTS_PATH : string := "yolov8n.pt".
Definition CONF_THRESHOLD : Q := 5 # 10.
Definition TEMP_UPLOAD_DIR : string := "temp_uploads".
Definition TEMP_OUTPUT_DIR : string := "temp_outputs".

(** The two [os.makedirs(..., exist_ok=True)] at import time. *)
Definition startup_fs (f : FS) : FS :=
  Fs.add TEMP_OUTPUT_DIR (Fs.add TEMP_UPLOAD_DIR f).

(** [allowed_extensions] of [predict_image] *)
Definition allowed_extensions : list string := [".jpg"; ".jpeg"; ".png"].

(** The suffix tuple of the fallback search in [run_detection] *)
Definition image_suffixes : list string :=
  [".png"; ".jpg"; ".jpeg"; ".bmp"; ".tif"; ".tiff"].

(** [x in allowed_extensions] *)
Definition in_set (x : string) (xs : list string) : bool :=
  existsb (String.eqb x) xs.

(** [f.lower().endswith(('.png', '.jpg', '.jpeg', '.bmp', '.tif', '.tiff'))] *)
Definition is_image_name (f : string) : bool :=
  endswith_any (lower f) image_suffixes.

(** [os.path.splitext(file.filename)[1].lower()] *)
Definition file_ext_of (name : string) : string :=
  lower (snd (splitext name)).

(** [os.path.join(TEMP_UPLOAD_DIR, f"{uuid.uuid4()}{file_ext}")] *)
Definition temp_input_path_of (uid file_ext : string) : string :=
  join TEMP_UPLOAD_DIR (uid ++ file_ext).

(** [os.path.join(TEMP_OUTPUT_DIR, unique_id)] *)
Definition output_subdir_of (unique_id : string) : string :=
  join TEMP_OUTPUT_DIR unique_id.

Definition detail_not_loaded : string := "モデルがロードされていません。".
Definition detail_save_failed : string := "推論結果の保存に失敗しました。".
Definition detail_inference_prefix : string := "推論中に内部エラーが発生しました: ".
Definition detail_unavailable : string :=
  "モデルが利用不可です。サーバーを確認してください。".
Definition detail_bad_ext_prefix : string :=
  "無効なファイル形式です。許可されている形式: ".
Definition detail_upload_failed : string :=
  "ファイルのアップロード処理中にエラーが発生しました。".
Definition detail_unexpected : string :=
  "推論処理中に予期せぬエラーが発生しました。".
Definition detail_response_failed : string :=
  "結果ファイルの送信中にエラーが発生しました。".

(** Lines 20-28: the model is loaded once at import; when [YOLO(...)]
    raises, the service keeps running with [model = None]. *)
Definition load_model (YOLO : string -> string + Model) : option Model :=
  match YOLO WEIGHTS_PATH with
  | inr m => Some m
  | inl _ => None
  end.

Section Backend.
Variable model : option Model.
Variable env : Env.

(** The search for the saved file, lines 68-84: [saved_path] stays [None]
    unless the first result has a [save_dir] and either the input's file
    name exists there or the directory scan finds an image-like name. *)
Definition find_saved_path (image_path : string)
    (results_list : list (option string)) : M (option string) :=
  match results_list with
  | Some save_dir :: _ =>
      let input_filename := basename image_path in
      let potential_saved_path := join save_dir input_filename in
      found <- path_exists potential_saved_path ;;
      if found then ret (Some potential_saved_path)
      else
        try_except
          (names <- listdir env save_dir ;;
           let img_files := filter is_image_name names in
           match img_files with
           | first :: _ => ret (Some (join save_dir first))
           | [] => ret None
           end)
          (fun e_find => ret None)
  | _ => ret None
  end.

Definition run_detection (image_path : string) : M string :=
  match model with
  | None => raise (HTTPException 500 detail_not_loaded)
  | Some m =>
      try_except
        (unique_id <- uuid4_str env ;;
         let output_subdir := output_subdir_of unique_id in
         makedirs env output_subdir ;;
         results_list <-
           call_predict m
             (mkPredictCall image_path true CONF_THRESHOLD
                            TEMP_OUTPUT_DIR unique_id true) ;;
         saved_path <- find_saved_path image_path results_list ;;
         match saved_path with
         | Some p =>
             found <- (if truthy p then path_exists p else ret false) ;;
             if found then ret p
             else raise (HTTPException 500 detail_save_failed)
         | None => raise (HTTPException 500 detail_save_failed)
         end)
        (fun e =>
           raise (HTTPException 500 (detail_inference_prefix ++ str env e)))
  end.

(** The [finally] block of the inference step, lines 141-148. *)
Definition remove_temp_input (temp_input_path : string) : M unit :=
  found <- path_exists temp_input_path ;;
  if found
  then try_except (os_remove env temp_input_path) (fun e_remove => ret tt)
  else ret tt.

Definition predict_image (file : UploadFile) : M FileResponse :=
  match model with
  | None => raise (HTTPException 503 detail_unavailable)
  | Some _ =>
      let file_ext := file_ext_of (filename file) in
      if negb (in_set file_ext allowed_extensions)
      then raise (HTTPException 400
                    (detail_bad_ext_prefix ++ allowed_joined env))
      else
        uid <- uuid4_str env ;;
        let temp_input_path := temp_input_path_of uid file_ext in
        try_finally
          (try_except
             (write_file env temp_input_path)
             (fun e => raise (HTTPException 500 detail_upload_failed)))
          (ret tt) ;;
        result_image_path <-
          try_finally
            (try_except
               (run_detection temp_input_path)
               (fun e =>
                  match e with
                  | HTTPException _ _ => raise e
                  | PyException _ =>
                      raise (HTTPException 500 detail_unexpected)
                  end))
            (remove_temp_input temp_input_path) ;;
        try_except
          (match response_fault env result_image_path with
           | Some text => raise (PyException text)
           | None =>
               ret (mkFileResponse result_image_path
                      ("image/" ++ lstrip extsep file_ext))
           end)
          (fun e => raise (HTTPException 500 detail_response_failed))
  end.

End Backend.

(** The status line a request ends with: 200 with a file, the code of an
    [HTTPException], and 500 for an exception that escapes the handler. *)
Definition status_of (r : Exn + FileResponse) : nat :=
  match r with
  | inr _ => 200%nat
  | inl (HTTPException status_code _) => status_code
  | inl (PyException _) => 500%nat
  end.

(** The calls of [model.predict] recorded in a trace, in order. *)
Definition predict_calls (t : list Event) : list PredictCall :=
  flat_map (fun e => match e with EvPredict c => [c] | _ => [] end) t.

(** [c in s] for one character *)
Fixpoint has_char (c : ascii) (s : string) : bool :=
  match s with
  | EmptyString => false
  | String a s' => Ascii.eqb a c || has_char c s'
  end.

(** The output-location step as the specification words it: the file is
    expected at [<output_subdir>/<original_filename>]; if absent, the first
    image-like entry of that subdirectory is taken, when the subdirectory
    can be listed; otherwise no output is located. *)
Definition locate_output (f : FS) (listable : bool)
    (output_subdir original_filename : string) : option string :=
  if Fs.exists_ f (join output_subdir original_filename)
  then Some (join output_subdir original_filename)
  else if listable
       then match filter is_image_name (Fs.entries f output_subdir) with
            | first :: _ => Some (join output_subdir first)
            | [] => None
            end
       else None.

(** Whether [os.listdir(d)] succeeds on filesystem [f]. *)
Definition listable (env : Env) (f : FS) (d : string) : bool :=
  match listdir_fault env d with
  | None => Fs.exists_ f d
  | Some _ => false
  end.

(** The 500 every failure inside the [try] of [run_detection] ends as. *)
Definition inference_error (env : Env) (e : Exn) : Exn :=
  HTTPException 500 (detail_inference_prefix ++ str env e).

(** The saved path [run_detection] settles on for a list of results. *)
Definition saved_path_of (env : Env) (f : FS) (image_path : string)
    (results_list : list (option string)) : option string :=
  match results_list with
  | Some save_dir :: _ =>
      locate_output f (listable env f save_dir) save_dir (basename image_path)
  | _ => None
  end.

(** What the last [if] of [run_detection] makes of [saved_path]. *)
Definition saved_outcome (env : Env) (f : FS) (saved_path : option string)
  : Exn + string :=
  match saved_path with
  | Some p =>
      if truthy p && Fs.exists_ f p then inr p
      else inl (inference_error env (HTTPException 500 detail_save_failed))
  | None => inl (inference_error env (HTTPException 500 detail_save_failed))
  end.

(** The call [run_detection] makes for [image_path] from world [w]. *)
Definition predict_call_of (env : Env) (image_path : string) (w : World)
  : PredictCall :=
  mkPredictCall image_path true CONF_THRESHOLD TEMP_OUTPUT_DIR
    (uuid4 env (draws w)) true.

Definition fs_after_makedirs (env : Env) (w : World) : FS :=
  let d := output_subdir_of (uuid4 env (draws w)) in
  Fs.add_all (Fs.ancestors d ++ [d]) (fs w).

(** The temp input path a request arriving in world [w] is given. *)
Definition request_input_path (env : Env) (file : UploadFile) (w : World)
  : string :=
  temp_input_path_of (uuid4 env (draws w)) (file_ext_of (filename file)).

(** The world once the upload has been written to [p]. *)
Definition world_after_write (p : string) (w : World) : World :=
  mkWorld (Fs.add p (fs w)) (S (draws w)) (trace w ++ [EvWrite p]).

(** The world the [finally] block of the inference step leaves. *)
Definition world_after_cleanup (env : Env) (p : string) (w : World) : World :=
  if Fs.exists_ (fs w) p
  then mkWorld (match remove_fault env p with
                | None => Fs.remove p (fs w)
                | Some _ => fs w
                end)
               (draws w) (trace w ++ [EvRemove p])
  else w.

(** The response [predict_image] builds from the outcome of inference. *)
Definition response_of (env : Env) (file_ext : string) (r : Exn + string)
  : Exn + FileResponse :=
  match r with
  | inl (HTTPException status_code detail) =>
      inl (HTTPException status_code detail)
  | inl (PyException _) => inl (HTTPException 500 detail_unexpected)
  | inr result_image_path =>
      match response_fault env result_image_path with
      | Some _ => inl (HTTPException 500 detail_response_failed)
      | None =>
          inr (mkFileResponse result_image_path
                 ("image/" ++ lstrip extsep file_ext))
      end
  end.

(** The detail text of a response, when it is an error. *)
Definition detail_of (r : Exn + FileResponse) : option string :=
  match r with
  | inl (HTTPException _ detail) => Some detail
  | inl (PyException _) => None
  | inr _ => None
  end.

(** [needle in s] for strings *)
Fixpoint contains (s needle : string) : bool :=
  startswith s needle
  || match s with
     | EmptyString => false
     | String _ s' => contains s' needle
     end.

(* ================================================================== *)
(** ** Concrete environments and models *)
(* ================================================================== *)

Module Scenario.

(** Identifiers [uuid-0], [uuid-1], ...; no faults; Starlette's rendering
    of an [HTTPException] ([f"{status_code}: {detail}"]). *)
Definition env_ok : Env :=
  mkEnv (fun n => "uuid-" ++ NilZero.string_of_uint (Nat.to_uint n))
        (fun _ => None) (fun _ => None) (fun _ => None) (fun _ => None)
        (fun _ => None)
        (fun status_code detail =>
           NilZero.string_of_uint (Nat.to_uint status_code) ++ ": " ++ detail)
        ".jpg, .jpeg, .png".

(** As [env_ok], but [os.remove] is refused for every path. *)
Definition env_remove_refused : Env :=
  mkEnv (uuid4 env_ok) (write_fault env_ok) (makedirs_fault env_ok)
        (listdir_fault env_ok)
        (fun _ => Some "[Errno 13] Permission denied")
        (response_fault env_ok) (http_str env_ok) (allowed_joined env_ok).

(** As [env_ok], but the copy of the upload fails after [open] created
    the file. *)
Definition env_disk_full : Env :=
  mkEnv (uuid4 env_ok)
        (fun _ => Some (true, "[Errno 28] No space left on device"))
        (makedirs_fault env_ok) (listdir_fault env_ok) (remove_fault env_ok)
        (response_fault env_ok) (http_str env_ok) (allowed_joined env_ok).

(** As [env_ok], but the output subdirectory cannot be created. *)
Definition env_no_mkdir : Env :=
  mkEnv (uuid4 env_ok) (write_fault env_ok)
        (fun _ => Some "[Errno 13] Permission denied")
        (listdir_fault env_ok) (remove_fault env_ok)
        (response_fault env_ok) (http_str env_ok) (allowed_joined env_ok).

(** A model that saves the annotated image as [project/name/<input name>]. *)
Definition yolo : Model :=
  mkModel (fun call f =>
    let save_dir := join (pc_project call) (pc_name call) in
    (inr [Some save_dir],
     Fs.add (join save_dir (basename (pc_source call))) (Fs.add save_dir f))).

(** A model that saves its output under a name of its own. *)
Definition yolo_named (out : string) : Model :=
  mkModel (fun call f =>
    let save_dir := join (pc_project call) (pc_name call) in
    (inr [Some save_dir], Fs.add (join save_dir out) (Fs.add save_dir f))).

(** A model that reports a result and saves nothing. *)
Definition yolo_silent : Model :=
  mkModel (fun call f =>
    (inr [Some (join (pc_project call) (pc_name call))], f)).

(** A model whose [predict] raises. *)
Definition yolo_raising (text : string) : Model :=
  mkModel (fun _ f => (inl text, f)).

Definition world0 : World := mkWorld (startup_fs []) 0 [].

Definition cat_png : UploadFile := mkUploadFile "cat.png" "PNG".
Definition notes_gif : UploadFile := mkUploadFile "notes.gif" "text".

End Scenario.

(* ================================================================== *)
(** ** Shutdown: cleanup_temp_dirs *)
(* ================================================================== *)

(** Whether [p] is directory [d] itself or lies beneath it. *)
Definition under_dir (d p : string) : bool :=
  String.eqb p d || startswith p (d ++ String sep "").

(** The filesystem once the tree rooted at [d] is gone. *)
Definition rmtree (d : string) (f : FS) : FS :=
  filter (fun p => negb (under_dir d p)) f.

(** How [shutil.rmtree] may fail on a directory: the filesystem it leaves
    behind (some of the tree may be gone already) and the text of the
    exception. *)
Definition RmtreeFault : Type := string -> FS -> option (FS * string).

(** [shutil.rmtree(d)] *)
Definition shutil_rmtree (fault : RmtreeFault) (d : string) : M unit :=
  f <- get_fs ;;
  match fault d f with
  | Some (left_behind, text) => set_fs left_behind ;; raise (PyException text)
  | None =>
      if Fs.exists_ f d then set_fs (rmtree d f)
      else raise (PyException
                    ("[Errno 2] No such file or directory: '" ++ d ++ "'"))
  end.

(** The shutdown hook, lines 32-44: both temp roots are removed inside one
    [try]; any exception is printed and dropped. *)
Definition cleanup_temp_dirs (fault : RmtreeFault) : M unit :=
  try_except
    (uploads <- path_exists TEMP_UPLOAD_DIR ;;
     (if uploads then shutil_rmtree fault TEMP_UPLOAD_DIR else ret tt) ;;
     outputs <- path_exists TEMP_OUTPUT_DIR ;;
     (if outputs then shutil_rmtree fault TEMP_OUTPUT_DIR else ret tt))
    (fun e => ret tt).

(** The filesystem a shutdown without faults leaves: each temp root that
    exists is removed with its tree. *)
Definition fs_after_shutdown (f : FS) : FS :=
  let f1 := if Fs.exists_ f TEMP_UPLOAD_DIR then rmtree TEMP_UPLOAD_DIR f
            else f in
  if Fs.exists_ f1 TEMP_OUTPUT_DIR then rmtree TEMP_OUTPUT_DIR f1 else f1.

(** [env] with another fault of [os.remove]. *)
Definition with_remove_fault (refuse : string -> option string) (env : Env)
  : Env :=
  mkEnv (uuid4 env) (write_fault env) (makedirs_fault env)
        (listdir_fault env) refuse (response_fault env) (http_str env)
        (allowed_joined env).

(** No fault of [shutil.rmtree]. *)
Definition no_rmtree_fault : RmtreeFault := fun _ _ => None.

(** The number of identifiers a request draws. *)
Definition identifiers_drawn (model : option Model) (env : Env)
    (file : UploadFile) (w : World) : nat :=
  match model with
  | None => 0
  | Some _ =>
      if in_set (file_ext_of (filename file)) allowed_extensions
      then match write_fault env (request_input_path env file w) with
           | None => 2
           | Some _ => 1
           end
      else 0
  end.

(** The paths a trace opened for writing, and the paths it removed. *)
Definition written_paths (t : list Event) : list string :=
  flat_map (fun e => match e with EvWrite p => [p] | _ => [] end) t.

Definition removed_paths (t : list Event) : list string :=
  flat_map (fun e => match e with EvRemove p => [p] | _ => [] end) t.

(* ================================================================== *)
(** ** streamlit_app.py *)
(* ================================================================== *)

Module Client.

(** The value of [st.file_uploader]: [name], [getvalue()] and [type]. *)
Record UploadedFile : Type := mkUploadedFile {
  name : string;
  value : string;
  mime : string
}.

(** A [requests.Response]: [status_code] and [content]. *)
Record Response : Type := mkResponse {
  status_code : nat;
  body : string
}.

(** A decoded [PIL.Image], kept by the bytes it was decoded from. *)
Record Image : Type := mkImage { source_bytes : string }.

(** An exception inside the [try] of the script: a
    [requests.exceptions.RequestException] or any other [Exception],
    each with its text. *)
Inductive ClientExn : Type :=
| RequestException (text : string)
| OtherException (text : string).

(** What the script shows and sends, in order. *)
Inductive Ui : Type :=
| StTitle (text : string)
| StImage (image : Image) (caption : string)
| StError (text : string)
| Post (url : string) (file : UploadedFile).

(** The libraries around the script: [Image.open] (the text of its
    exception, or the image), [requests.post] and the text of the
    [HTTPError] that [raise_for_status] raises. *)
Record Libs : Type := mkLibs {
  image_open : string -> string + Image;
  requests_post : string -> UploadedFile -> ClientExn + Response;
  http_error_text : Response -> string
}.

Definition API_ENDPOINT : string := "https://yolov8-qjyc.onrender.com/predict".

Definition TITLE : string := "物体検出アプリ".
Definition CAPTION_UPLOADED : string := "アップロードされた画像".
Definition CAPTION_RESULT : string := "物体検出の結果".
Definition REQUEST_ERROR_PREFIX : string := "APIリクエストエラー: ".
Definition ERROR_PREFIX : string := "エラー: ".

(** [response.raise_for_status()]: an [HTTPError], which is a
    [RequestException], for a status from 400 to 599. *)
Definition raise_for_status (libs : Libs) (response : Response)
  : ClientExn + unit :=
  if ((400 <=? status_code response) && (status_code response <? 600))%nat
  then inl (RequestException (http_error_text libs response))
  else inr tt.

(** The body of the [try], lines 25-30: what it shows, or the exception
    that leaves it. *)
Definition detect (libs : Libs) (uploaded_file : UploadedFile)
  : ClientExn + list Ui :=
  match requests_post libs API_ENDPOINT uploaded_file with
  | inl e => inl e
  | inr response =>
      match raise_for_status libs response with
      | inl e => inl e
      | inr _ =>
          match image_open libs (body response) with
          | inl text => inl (OtherException text)
          | inr result_image => inr [StImage result_image CAPTION_RESULT]
          end
      end
  end.

(** One run of the script for the current widget state: the selected file
    (if any) and whether the button was pressed.  The Streamlit calls
    themselves ([st.title], [st.image], [st.error], [st.spinner]) are taken
    not to raise.  The result is what was
    shown and sent and, when [Image.open] of the selected file raised
    outside any [try], the text of that exception. *)
Definition script (libs : Libs) (uploaded_file : option UploadedFile)
    (pressed : bool) : list Ui * option string :=
  match uploaded_file with
  | None => ([StTitle TITLE], None)
  | Some file =>
      match image_open libs (value file) with
      | inl text => ([StTitle TITLE], Some text)
      | inr image =>
          let shown := [StTitle TITLE; StImage image CAPTION_UPLOADED] in
          if pressed
          then
            (shown ++ [Post API_ENDPOINT file]
             ++ match detect libs file with
                | inr result => result
                | inl (RequestException text) =>
                    [StError (REQUEST_ERROR_PREFIX ++ text)]
                | inl (OtherException text) => [StError (ERROR_PREFIX ++ text)]
                end, None)%list
          else (shown, None)
      end
  end.

(** The requests a run sent, the result images and the errors it showed. *)
Definition posts (ui : list Ui) : list (string * UploadedFile) :=
  flat_map (fun e => match e with Post url f => [(url, f)] | _ => [] end) ui.

Definition result_images (ui : list Ui) : list Image :=
  flat_map (fun e => match e with
                     | StImage i caption =>
                         if String.eqb caption CAPTION_RESULT then [i] else []
                     | _ => []
                     end) ui.

Definition errors (ui : list Ui) : list string :=
  flat_map (fun e => match e with StError t => [t] | _ => [] end) ui.

(** Libraries for examples: bytes starting with [IMG] decode, the server
    answers every post with the given response. *)
Definition libs_answering (r : Response) : Libs :=
  mkLibs (fun b => if startswith b "IMG" then inr (mkImage b)
                   else inl "cannot identify image file")
         (fun _ _ => inr r)
         (fun r => "HTTP error for url").

(** Libraries whose [requests.post] cannot connect. *)
Definition libs_offline : Libs :=
  mkLibs (image_open (libs_answering (mkResponse 200 "")))
         (fun _ _ => inl (RequestException "connection refused"))
         (fun r => "HTTP error for url").

Definition photo : UploadedFile := mkUploadedFile "cat.png" "IMG-cat" "image/png".

End Client.

Module Shutdown.
Import Scenario.

(** [shutil.rmtree] fails on [temp_uploads], having removed nothing. *)
Definition uploads_locked : RmtreeFault :=
  fun d f => if String.eqb d TEMP_UPLOAD_DIR
             then Some (f, "[Errno 13] Permission denied")
             else None.

(** A filesystem with leftovers of two requests and files of its own. *)
Definition used_fs : FS :=
  ["app.py"; "temp_uploads"; "temp_outputs"; "temp_uploads/uuid-0.png";
   "temp_outputs/uuid-1"; "temp_outputs/uuid-1/uuid-0.png";
   "temp_outputs_backup/keep.png"; "yolov8n.pt"].

(** A model that reports the upload directory as its [save_dir] and saves
    nothing: the file found under the input's name is the input itself. *)
Definition yolo_in_place : Model :=
  mkModel (fun call f => (inr [Some TEMP_UPLOAD_DIR], f)).

(** As [Scenario.yolo], but raising when its input file is missing. *)
Definition yolo_checking : Model :=
  mkModel (fun call f =>
    if Fs.exists_ f (pc_source call) then predict yolo call f
    else (inl "No such file", f)).

End Shutdown.

Module Reported.

(** A model that saves the annotated image as [project/name/<input name>]
    and returns an empty list of results. *)
Definition yolo_no_results : Model :=
  mkModel (fun call f =>
    let save_dir := join (pc_project call) (pc_name call) in
    (inr [],
     Fs.add (join save_dir (basename (pc_source call))) (Fs.add save_dir f))).

(** A model that resolves a relative [project] under a runs directory of
    its own: it saves the annotated image as
    [runs/detect/project/name/<input name>] and reports that directory as
    [save_dir]. *)
Definition yolo_runs_dir : Model :=
  mkModel (fun call f =>
    let save_dir :=
      join "runs/detect" (join (pc_project call) (pc_name call)) in
    (inr [Some save_dir],
     Fs.add (join save_dir (basename (pc_source call))) (Fs.add save_dir f))).

End Reported.

(** Unfolds the monad down to world-passing functions. *)
Ltac unfold_m :=
  unfold bind, ret, raise, try_except, try_finally, log_event, set_fs,
    get_fs, path_exists, uuid4_str in *.

(* ================================================================== *)
(** ** Facts about strings and paths *)
(* ================================================================== *)

Example splitext_plain : splitext "cat.png" = ("cat", ".png").
Proof. reflexivity. Qed.
Example splitext_upper : splitext "dir.d/Cat.JPG" = ("dir.d/Cat", ".JPG").
Proof. reflexivity. Qed.
Example splitext_dotfile : splitext ".jpg" = (".jpg", "").
Proof. reflexivity. Qed.
Example splitext_dots : splitext "a/...png" = ("a/...png", "").
Proof. reflexivity. Qed.
Example splitext_dir_dot : splitext "a.b/c" = ("a.b/c", "").
Proof. reflexivity. Qed.
Example splitext_two : splitext "x.tar.gz" = ("x.tar", ".gz").
Proof. reflexivity. Qed.
Example basename_ex : basename "temp_uploads/abc.png" = "abc.png".
Proof. reflexivity. Qed.
Example join_ex : join "temp_uploads" "abc.png" = "temp_uploads/abc.png".
Proof. reflexivity. Qed.
Example join_abs : join "temp_uploads" "/etc/x" = "/etc/x".
Proof. reflexivity. Qed.
Example lower_ex : lower "Cat.JPeG" = "cat.jpeg".
Proof. reflexivity. Qed.
Example lstrip_ex : lstrip extsep ".jpeg" = "jpeg".
Proof. reflexivity. Qed.
Example entries_ex :
  Fs.entries ["t"; "t/a"; "t/a/x.png"; "t/b.png"; "u/c.png"] "t" = ["a"; "b.png"].
Proof. reflexivity. Qed.
Example ancestors_ex : Fs.ancestors "a/b/c" = ["a"; "a/b"].
Proof. reflexivity. Qed.

(* ================================================================== *)

Section StringFacts.

Lemma lower_ascii_keeps (a c : ascii) :
  c = sep \/ c = extsep ->
  Ascii.eqb (lower_ascii a) c = Ascii.eqb a c.
Proof.
  intros [-> | ->];
    destruct a as [[] [] [] [] [] [] [] []]; reflexivity.
Qed.

Lemma lower_ascii_idem (a : ascii) : lower_ascii (lower_ascii a) = lower_ascii a.
Proof. destruct a as [[] [] [] [] [] [] [] []]; reflexivity. Qed.

Lemma lower_idem (s : string) : lower (lower s) = lower s.
Proof.
  induction s as [| a s IH]; simpl; [reflexivity |].
  now rewrite lower_ascii_idem, IH.
Qed.

Lemma lower_length (s : string) : String.length (lower s) = String.length s.
Proof. induction s as [| a s IH]; simpl; congruence. Qed.


Lemma lower_take (n : nat) (s : string) : lower (take n s) = take n (lower s).
Proof.
  revert s; induction n as [| n IH]; intros [| a s]; simpl; try reflexivity.
  now rewrite IH.
Qed.

Lemma lower_drop (n : nat) (s : string) : lower (drop n s) = drop n (lower s).
Proof.
  revert s; induction n as [| n IH]; intros [| a s]; simpl; try reflexivity.
  apply IH.
Qed.


Lemma drop_app_length (s t : string) : drop (String.length s) (s ++ t) = t.
Proof. induction s as [| a s IH]; simpl; auto. Qed.

Lemma app_length (s t : string) :
  String.length (s ++ t) = (String.length s + String.length t)%nat.
Proof. induction s as [| a s IH]; simpl; auto. Qed.


Lemma app_inv_head (s t u : string) : s ++ t = s ++ u -> t = u.
Proof. induction s as [| a s IH]; simpl; intros H; [assumption |]. injection H; auto. Qed.


Lemma startswith_app (s p : string) :
  startswith s p = true -> s = p ++ drop (String.length p) s.
Proof.
  revert s; induction p as [| a p IH]; intros s H; simpl in *.
  - reflexivity.
  - destruct s as [| b s]; [discriminate |].
    apply andb_true_iff in H as [Hab Hs].
    apply Ascii.eqb_eq in Hab. subst b. simpl. f_equal. now apply IH.
Qed.

Lemma rfind_from_lower (c : ascii) (s : string) (i : Z) :
  c = sep \/ c = extsep ->
  rfind_from c (lower s) i = rfind_from c s i.
Proof.
  intros Hc. revert i; induction s as [| a s IH]; intros i; simpl.
  - reflexivity.
  - now rewrite IH, lower_ascii_keeps.
Qed.

Lemma rfind_from_range (c : ascii) (s : string) (i : Z) :
  rfind_from c s i = -1
  \/ i <= rfind_from c s i < i + Z.of_nat (String.length s).
Proof.
  revert i; induction s as [| a s IH]; intros i; simpl String.length.
  - now left.
  - simpl rfind_from. specialize (IH (i + 1)).
    destruct (0 <=? rfind_from c s (i + 1)) eqn:E.
    + right. apply Z.leb_le in E. lia.
    + destruct (Ascii.eqb a c); [right; lia | now left].
Qed.

Lemma rfind_from_none (c : ascii) (s : string) (i : Z) :
  0 <= i -> has_char c s = false -> rfind_from c s i = -1.
Proof.
  revert i; induction s as [| a s IH]; intros i Hi H; simpl in *.
  - reflexivity.
  - apply orb_false_iff in H as [Ha Hs].
    rewrite IH by (lia || assumption). simpl. now rewrite Ha.
Qed.

Lemma rfind_from_head (c a : ascii) (s : string) :
  rfind_from c (String a s) 0 < 0 -> Ascii.eqb a c = false.
Proof.
  cbn [rfind_from]. intros H.
  destruct (rfind_from_range c s (0 + 1)) as [E | E].
  - rewrite E in H. simpl in H. destruct (Ascii.eqb a c); [lia | reflexivity].
  - destruct (0 <=? rfind_from c s (0 + 1)) eqn:E'; [lia |].
    apply Z.leb_gt in E'. lia.
Qed.

Lemma char_at_lower_dot (p : string) (i : Z) :
  String.eqb (char_at (lower p) i) (String extsep "")
  = String.eqb (char_at p i) (String extsep "").
Proof.
  unfold char_at. rewrite <- lower_drop.
  destruct (drop (Z.to_nat i) p) as [| a q]; [reflexivity |].
  change (String.eqb (String (lower_ascii a) "") (String extsep "")
          = String.eqb (String a "") (String extsep "")).
  cbn [String.eqb]. rewrite lower_ascii_keeps by now right. reflexivity.
Qed.

Lemma splitext_loop_lower (p : string) (d : Z) (n : nat) :
  splitext_loop (lower p) d n
  = (lower (fst (splitext_loop p d n)), lower (snd (splitext_loop p d n))).
Proof.
  induction n as [| n IH]; [reflexivity |].
  cbn [splitext_loop]. rewrite char_at_lower_dot.
  destruct (negb _); simpl.
  - now rewrite lower_take, lower_drop.
  - apply IH.
Qed.

Lemma splitext_lower (p : string) :
  splitext (lower p) = (lower (fst (splitext p)), lower (snd (splitext p))).
Proof.
  unfold splitext, rfind.
  rewrite !rfind_from_lower by (now left + now right).
  destruct (_ <? _); [apply splitext_loop_lower | reflexivity].
Qed.



Lemma file_ext_of_lower (name : string) :
  file_ext_of (lower name) = file_ext_of name.
Proof.
  unfold file_ext_of. rewrite splitext_lower. simpl. apply lower_idem.
Qed.

Lemma file_ext_of_no_dot (name : string) :
  has_char extsep name = false -> file_ext_of name = "".
Proof.
  intros H. unfold file_ext_of, splitext, rfind.
  rewrite (rfind_from_none extsep) by (lia || assumption).
  destruct (rfind_from_range sep name 0) as [E | E].
  - rewrite E. reflexivity.
  - destruct (_ <? _) eqn:E'; [apply Z.ltb_lt in E'; lia | reflexivity].
Qed.

Lemma in_set_In (x : string) (xs : list string) :
  in_set x xs = true <-> In x xs.
Proof.
  unfold in_set. rewrite existsb_exists. split.
  - intros [y [Hy E]]. apply String.eqb_eq in E. now subst.
  - intros H. exists x. split; [assumption | apply String.eqb_refl].
Qed.

End StringFacts.

Section PathFacts.

Lemma append_assoc (s t u : string) : (s ++ t) ++ u = s ++ t ++ u.
Proof. induction s as [| a s IH]; simpl; congruence. Qed.

Lemma list_ascii_of_string_app (s t : string) :
  list_ascii_of_string (s ++ t)
  = (list_ascii_of_string s ++ list_ascii_of_string t)%list.
Proof. induction s as [| a s IH]; simpl; congruence. Qed.

Lemma list_ascii_of_string_inj (s t : string) :
  list_ascii_of_string s = list_ascii_of_string t -> s = t.
Proof.
  intros H. rewrite <- (string_of_list_ascii_of_string s),
    <- (string_of_list_ascii_of_string t). now rewrite H.
Qed.

Lemma startswith_sep (s : string) :
  startswith s (String sep "") = true -> exists s', s = String sep s'.
Proof.
  destruct s as [| b s]; cbn [startswith]; [discriminate |].
  rewrite andb_true_r. intros H. apply Ascii.eqb_eq in H. subst b. now exists s.
Qed.

(** Under either temp root, [join] is [root/x] unless [x] is absolute. *)
Lemma join_temp (d x : string) :
  d = TEMP_UPLOAD_DIR \/ d = TEMP_OUTPUT_DIR ->
  join d x = if startswith x (String sep "") then x else d ++ "/" ++ x.
Proof. intros [-> | ->]; unfold join; destruct (startswith _ _); reflexivity. Qed.

Lemma join_temp_inj (d x y : string) :
  d = TEMP_UPLOAD_DIR \/ d = TEMP_OUTPUT_DIR ->
  join d x = join d y -> x = y.
Proof.
  intros Hd. rewrite !join_temp by assumption.
  destruct (startswith x _) eqn:Ex, (startswith y _) eqn:Ey; intros H.
  - assumption.
  - apply startswith_sep in Ex as [x' ->].
    destruct Hd as [-> | ->]; discriminate H.
  - apply startswith_sep in Ey as [y' ->].
    destruct Hd as [-> | ->]; discriminate H.
  - apply app_inv_head in H. now apply app_inv_head in H.
Qed.

Lemma join_truthy (d x : string) : truthy d = true -> truthy (join d x) = true.
Proof.
  intros Hd. unfold join.
  destruct (startswith x _) eqn:Ex.
  - apply startswith_sep in Ex as [x' ->]. reflexivity.
  - destruct d as [| a d]; [discriminate |].
    destruct (_ || _); reflexivity.
Qed.

Lemma output_subdir_truthy (unique_id : string) :
  truthy (output_subdir_of unique_id) = true.
Proof. now apply join_truthy. Qed.

(** A whitelisted extension at the end of a name determines both parts. *)
Lemma app_allowed_inj (u1 u2 e1 e2 : string) :
  In e1 allowed_extensions -> In e2 allowed_extensions ->
  u1 ++ e1 = u2 ++ e2 -> u1 = u2 /\ e1 = e2.
Proof.
  intros H1 H2 H.
  apply (f_equal list_ascii_of_string) in H.
  rewrite !list_ascii_of_string_app in H.
  apply (f_equal (@rev ascii)) in H. rewrite !rev_app_distr in H.
  simpl in H1, H2.
  destruct H1 as [<- | [<- | [<- | []]]];
    destruct H2 as [<- | [<- | [<- | []]]];
    simpl in H; try discriminate H;
    (split; [| reflexivity]);
    apply list_ascii_of_string_inj;
    rewrite <- (rev_involutive (list_ascii_of_string u1)),
      <- (rev_involutive (list_ascii_of_string u2));
    f_equal; congruence.
Qed.

Lemma exists_In (f : FS) (p : string) : Fs.exists_ f p = true <-> In p f.
Proof. apply in_set_In. Qed.

Lemma exists_remove (f : FS) (p : string) :
  Fs.exists_ (Fs.remove p f) p = false.
Proof.
  destruct (Fs.exists_ (Fs.remove p f) p) eqn:E; [| reflexivity].
  apply exists_In in E. unfold Fs.remove in E.
  apply filter_In in E as [_ E]. now rewrite String.eqb_refl in E.
Qed.

(** What a directory scan reports exists under the scanned directory. *)
Lemma entries_exist (f : FS) (d n : string) :
  truthy d = true -> In n (Fs.entries f d) -> Fs.exists_ f (join d n) = true.
Proof.
  intros Hd Hn. unfold Fs.entries in Hn.
  apply in_flat_map in Hn as [p [Hp Hn]].
  apply exists_In.
  replace (join d n) with p; [assumption |].
  unfold Fs.entry_in in Hn.
  destruct (startswith p _) eqn:Hpre; [| destruct Hn].
  apply startswith_app in Hpre.
  destruct (truthy _ && _) eqn:Hname; [| destruct Hn].
  destruct Hn as [Hn | []].
  apply andb_true_iff in Hname as [Hne Hnosep].
  rewrite Hn in *. clear Hn.
  apply Z.ltb_lt in Hnosep.
  assert (Hs : startswith n (String sep "") = false).
  { destruct n as [| a n']; [reflexivity |].
    apply rfind_from_head in Hnosep. cbn [startswith].
    rewrite Ascii.eqb_sym, Hnosep. reflexivity. }
  unfold join. rewrite Hs, Hd. simpl negb. simpl orb.
  rewrite Hpre at 1.
  destruct (endswith d _); [reflexivity | apply append_assoc].
Qed.

End PathFacts.

(* ================================================================== *)
(** ** Facts about the handler *)
(* ================================================================== *)

Section HandlerFacts.
Variable env : Env.

Lemma find_saved_path_eq (image_path save_dir : string)
    (rest : list (option string)) (w : World) :
  find_saved_path env image_path (Some save_dir :: rest) w
  = (inr (locate_output (fs w) (listable env (fs w) save_dir) save_dir
            (basename image_path)), w).
Proof.
  unfold find_saved_path, locate_output, listable, listdir. unfold_m.
  destruct (Fs.exists_ (fs w) (join save_dir (basename image_path)));
    [reflexivity |].
  destruct (listdir_fault env save_dir); [reflexivity |].
  destruct (Fs.exists_ (fs w) save_dir); [| reflexivity].
  destruct (filter is_image_name _); reflexivity.
Qed.

Lemma find_saved_path_none (image_path : string)
    (results_list : list (option string)) (w : World) :
  match results_list with Some _ :: _ => False | _ => True end ->
  find_saved_path env image_path results_list w = (inr None, w).
Proof. destruct results_list as [| [d |] rest]; intros H; [| destruct H |]; reflexivity. Qed.

Lemma run_detection_makedirs_fault (m : Model) (image_path : string)
    (w : World) (text : string) :
  makedirs_fault env (output_subdir_of (uuid4 env (draws w))) = Some text ->
  run_detection (Some m) env image_path w
  = (inl (inference_error env (PyException text)),
     mkWorld (fs w) (S (draws w))
       (trace w ++ [EvMakedirs (output_subdir_of (uuid4 env (draws w)))])).
Proof.
  intros H. unfold run_detection, makedirs. unfold_m. simpl. rewrite H.
  reflexivity.
Qed.

Lemma run_detection_eq (m : Model) (image_path : string) (w : World)
    (r : string + list (option string)) (f1 : FS) :
  makedirs_fault env (output_subdir_of (uuid4 env (draws w))) = None ->
  predict m (predict_call_of env image_path w) (fs_after_makedirs env w) = (r, f1) ->
  run_detection (Some m) env image_path w
  = (match r with
     | inl text => inl (inference_error env (PyException text))
     | inr results_list =>
         saved_outcome env f1 (saved_path_of env f1 image_path results_list)
     end,
     mkWorld f1 (S (draws w))
       (trace w ++ [EvMakedirs (output_subdir_of (uuid4 env (draws w)));
                    EvPredict (predict_call_of env image_path w)])).
Proof.
  intros Hmk Hp.
  unfold run_detection, makedirs, call_predict. unfold_m.
  cbn [fs draws trace]. rewrite Hmk. cbn [fs draws trace].
  change (predict m _ _)
    with (predict m (predict_call_of env image_path w) (fs_after_makedirs env w)).
  rewrite Hp, <- app_assoc. simpl app.
  fold (predict_call_of env image_path w).
  destruct r as [text | results_list]; [reflexivity |].
  destruct results_list as [| [save_dir |] rest]; try reflexivity.
  rewrite find_saved_path_eq. cbn [fs draws trace saved_path_of].
  unfold saved_outcome.
  destruct (locate_output _ _ _ _) as [p |]; [| reflexivity].
  destruct (truthy p); simpl; [| reflexivity].
  destruct (Fs.exists_ f1 p); reflexivity.
Qed.

(** [run_detection] only ever raises a 500 [HTTPException]. *)
Lemma run_detection_raises_500 (model : option Model) (image_path : string)
    (w : World) (e : Exn) (w' : World) :
  run_detection model env image_path w = (inl e, w') ->
  exists detail, e = HTTPException 500 detail.
Proof.
  destruct model as [m |].
  - destruct (makedirs_fault env (output_subdir_of (uuid4 env (draws w))))
      as [text |] eqn:Hmk.
    + rewrite (run_detection_makedirs_fault m image_path w text Hmk).
      intros H. injection H as <- _. now eexists.
    + destruct (predict m (predict_call_of env image_path w)
                  (fs_after_makedirs env w)) as [r f1] eqn:Hp.
      rewrite (run_detection_eq m image_path w r f1 Hmk Hp).
      destruct r as [text | results_list].
      * intros H. injection H as <- _. now eexists.
      * unfold saved_outcome.
        destruct (saved_path_of _ _ _ _) as [sp |].
        -- destruct (truthy sp && _); intros H; [discriminate H |].
           injection H as <- _. now eexists.
        -- intros H. injection H as <- _. now eexists.
  - intros H. injection H as <- _. now eexists.
Qed.

(** A path [run_detection] returns exists when it returns. *)
Lemma run_detection_returns_existing (model : option Model)
    (image_path : string) (w : World) (p : string) (w' : World) :
  run_detection model env image_path w = (inr p, w') ->
  Fs.exists_ (fs w') p = true.
Proof.
  destruct model as [m |]; [| discriminate].
  destruct (makedirs_fault env (output_subdir_of (uuid4 env (draws w))))
    as [text |] eqn:Hmk.
  - rewrite (run_detection_makedirs_fault m image_path w text Hmk).
    discriminate.
  - destruct (predict m (predict_call_of env image_path w)
                (fs_after_makedirs env w)) as [r f1] eqn:Hp.
    rewrite (run_detection_eq m image_path w r f1 Hmk Hp).
    destruct r as [text | results_list]; [discriminate |].
    unfold saved_outcome.
    destruct (saved_path_of _ _ _ _) as [sp |]; [| discriminate].
    destruct (truthy sp && _) eqn:E; [| discriminate].
    intros H. injection H as <- <-. simpl.
    now apply andb_true_iff in E.
Qed.

Lemma remove_temp_input_eq (p : string) (w : World) :
  remove_temp_input env p w = (inr tt, world_after_cleanup env p w).
Proof.
  unfold remove_temp_input, world_after_cleanup, os_remove. unfold_m.
  destruct (Fs.exists_ (fs w) p) eqn:E; [| reflexivity].
  cbn [fs draws trace]. rewrite E.
  destruct (remove_fault env p); reflexivity.
Qed.

Lemma cleanup_removes (p : string) (w : World) :
  remove_fault env p = None ->
  Fs.exists_ (fs (world_after_cleanup env p w)) p = false.
Proof.
  intros H. unfold world_after_cleanup. rewrite H.
  destruct (Fs.exists_ (fs w) p) eqn:E; [apply exists_remove | assumption].
Qed.

(** The handler behind the two guards, when the upload is written. *)
Lemma predict_image_eq (m : Model) (file : UploadFile) (w : World) :
  in_set (file_ext_of (filename file)) allowed_extensions = true ->
  write_fault env (request_input_path env file w) = None ->
  predict_image (Some m) env file w
  = (response_of env (file_ext_of (filename file))
       (fst (run_detection (Some m) env (request_input_path env file w)
               (world_after_write (request_input_path env file w) w))),
     world_after_cleanup env (request_input_path env file w)
       (snd (run_detection (Some m) env (request_input_path env file w)
               (world_after_write (request_input_path env file w) w)))).
Proof.
  intros Hext Hw.
  unfold predict_image. rewrite Hext. cbn [negb].
  unfold bind at 1. unfold uuid4_str at 1.
  fold (request_input_path env file w).
  unfold bind at 1. unfold try_finally at 1. unfold try_except at 1.
  unfold write_file. unfold bind at 1. unfold log_event at 1.
  unfold bind at 1. unfold get_fs at 1. cbn [fs draws trace].
  rewrite Hw. unfold set_fs at 1. unfold ret at 1. cbn [fs draws trace].
  fold (world_after_write (request_input_path env file w) w).
  unfold bind at 1. unfold try_finally at 1. unfold try_except at 1.
  destruct (run_detection (Some m) env (request_input_path env file w)
              (world_after_write (request_input_path env file w) w))
    as [r w3] eqn:Hrun.
  cbn [fst snd].
  destruct r as [e | result_image_path].
  - destruct (run_detection_raises_500 _ _ _ _ _ Hrun) as [detail ->].
    unfold raise at 1. rewrite remove_temp_input_eq. reflexivity.
  - rewrite remove_temp_input_eq. unfold try_except, response_of.
    destruct (response_fault env result_image_path); reflexivity.
Qed.

(** The handler when writing the upload fails. *)
Lemma predict_image_write_fault (m : Model) (file : UploadFile) (w : World)
    (created : bool) (text : string) :
  in_set (file_ext_of (filename file)) allowed_extensions = true ->
  write_fault env (request_input_path env file w) = Some (created, text) ->
  predict_image (Some m) env file w
  = (inl (HTTPException 500 detail_upload_failed),
     mkWorld (if created
              then Fs.add (request_input_path env file w) (fs w)
              else fs w)
             (S (draws w))
             (trace w ++ [EvWrite (request_input_path env file w)])).
Proof.
  intros Hext Hw.
  unfold predict_image. rewrite Hext. cbn [negb].
  unfold write_file. unfold_m. cbn [fs draws trace].
  fold (request_input_path env file w). rewrite Hw. reflexivity.
Qed.

(** The two guards. *)
Lemma predict_image_unloaded (file : UploadFile) (w : World) :
  predict_image None env file w = (inl (HTTPException 503 detail_unavailable), w).
Proof. reflexivity. Qed.

Lemma predict_image_bad_ext (m : Model) (file : UploadFile) (w : World) :
  in_set (file_ext_of (filename file)) allowed_extensions = false ->
  predict_image (Some m) env file w
  = (inl (HTTPException 400 (detail_bad_ext_prefix ++ allowed_joined env)), w).
Proof. intros H. unfold predict_image. now rewrite H. Qed.

End HandlerFacts.

(* ================================================================== *)
(** ** The temp input file after a request (C1) *)
(* ================================================================== *)

Import Scenario.

(** C1, as stated, fails: the request below succeeds with status 200, but
    [os.remove] is refused, the refusal is swallowed by the [finally]
    block, and the temp input file still exists after the request. *)
Lemma temp_input_survives_refused_remove :
  status_of (fst (predict_image (Some yolo) env_remove_refused cat_png world0))
  = 200%nat
  /\ Fs.exists_
       (fs (snd (predict_image (Some yolo) env_remove_refused cat_png world0)))
       (request_input_path env_remove_refused cat_png world0) = true.
Proof. split; reflexivity. Qed.

(** C1 (amended): for every request that passes the model and extension
    checks and whose upload is written to the temp input file, whatever
    inference does (success, any error, any change to the filesystem),
    when the operating system does not refuse the deletion the temp input
    file no longer exists after the request. *)
Theorem temp_input_removed_after_request
    (m : Model) (env : Env) (file : UploadFile) (w : World) :
  in_set (file_ext_of (filename file)) allowed_extensions = true ->
  write_fault env (request_input_path env file w) = None ->
  remove_fault env (request_input_path env file w) = None ->
  Fs.exists_ (fs (snd (predict_image (Some m) env file w)))
    (request_input_path env file w) = false.
Proof.
  intros Hext Hw Hrm.
  rewrite (predict_image_eq env m file w Hext Hw). cbn [snd].
  now apply cleanup_removes.
Qed.

Lemma temp_input_removed_after_request_witness :
  Fs.exists_
    (fs (snd (predict_image (Some (yolo_raising "boom")) env_ok cat_png world0)))
    (request_input_path env_ok cat_png world0) = false.
Proof.
  apply (temp_input_removed_after_request
           (yolo_raising "boom") env_ok cat_png world0); reflexivity.
Defined.

(** The upload-write failure path returns before the cleanup block: a
    file that [open] created stays behind. *)
Example temp_input_left_by_failed_write :
  Fs.exists_
    (fs (snd (predict_image (Some yolo) env_disk_full cat_png world0)))
    (request_input_path env_disk_full cat_png world0) = true.
Proof. reflexivity. Qed.

(* ================================================================== *)
(** ** The two guards (C2, C4, C9) *)
(* ================================================================== *)

(** C2, as stated, fails: with the model unset, an upload with a
    disallowed extension is answered 503, not 400. *)
Lemma bad_extension_unloaded_is_not_400 :
  in_set (file_ext_of (filename notes_gif)) allowed_extensions = false
  /\ status_of (fst (predict_image None env_ok notes_gif world0)) <> 400%nat.
Proof. split; [reflexivity | discriminate]. Qed.

(** C2 (amended): for every upload whose lower-cased filename extension is
    not one of .jpg/.jpeg/.png, the request ends before any effect: the
    world is unchanged (no identifier drawn, no temp file written, no
    inference); the status is 400 when the model is loaded and 503 when it
    is unset, since the model check runs first. *)
Theorem bad_extension_rejected_before_any_effect
    (model : option Model) (env : Env) (file : UploadFile) (w : World) :
  in_set (file_ext_of (filename file)) allowed_extensions = false ->
  snd (predict_image model env file w) = w
  /\ status_of (fst (predict_image model env file w))
     = match model with Some _ => 400%nat | None => 503%nat end.
Proof.
  intros Hext. destruct model as [m |].
  - rewrite (predict_image_bad_ext env m file w Hext). now split.
  - now split.
Qed.

Lemma bad_extension_rejected_before_any_effect_witness :
  snd (predict_image (Some yolo) env_ok notes_gif world0) = world0
  /\ status_of (fst (predict_image (Some yolo) env_ok notes_gif world0))
     = 400%nat.
Proof.
  apply (bad_extension_rejected_before_any_effect
           (Some yolo) env_ok notes_gif world0).
  reflexivity.
Defined.

(** C4: when loading the model failed at startup, every request is
    answered 503 and leaves the world as it was: no temp file, no
    identifier, no inference. *)
Theorem unloaded_model_rejects_with_503
    (YOLO : string -> string + Model) (text : string)
    (env : Env) (file : UploadFile) (w : World) :
  YOLO WEIGHTS_PATH = inl text ->
  predict_image (load_model YOLO) env file w
  = (inl (HTTPException 503 detail_unavailable), w)
  /\ status_of (fst (predict_image (load_model YOLO) env file w)) = 503%nat
  /\ fs (snd (predict_image (load_model YOLO) env file w)) = fs w
  /\ trace (snd (predict_image (load_model YOLO) env file w)) = trace w.
Proof.
  intros H. unfold load_model. rewrite H. repeat split.
Qed.

Lemma unloaded_model_rejects_with_503_witness :
  status_of
    (fst (predict_image (load_model (fun _ => inl "weights not found"))
            env_ok cat_png world0)) = 503%nat.
Proof.
  apply (unloaded_model_rejects_with_503
           (fun _ => inl "weights not found") "weights not found"
           env_ok cat_png world0).
  reflexivity.
Defined.

(** C9: the extension check is case-insensitive.  A request is handled
    exactly as the same request with its filename lower-cased; the
    comparison is made on the lower-cased extension; and a filename
    without a dot is rejected with 400. *)
Theorem extension_check_case_insensitive
    (m : Model) (env : Env) (name body : string) (w : World) :
  predict_image (Some m) env (mkUploadFile (lower name) body) w
  = predict_image (Some m) env (mkUploadFile name body) w
  /\ (in_set (lower (snd (splitext name))) [".jpg"; ".jpeg"; ".png"] = false ->
      status_of (fst (predict_image (Some m) env (mkUploadFile name body) w))
      = 400%nat)
  /\ (has_char "." name = false ->
      predict_image (Some m) env (mkUploadFile name body) w
      = (inl (HTTPException 400 (detail_bad_ext_prefix ++ allowed_joined env)),
         w)).
Proof.
  split; [| split].
  - unfold predict_image. cbn [filename]. now rewrite file_ext_of_lower.
  - intros H. now rewrite predict_image_bad_ext.
  - intros H. apply predict_image_bad_ext. cbn [filename].
    now rewrite file_ext_of_no_dot.
Qed.

Lemma extension_check_case_insensitive_witness :
  status_of (fst (predict_image (Some yolo) env_ok (mkUploadFile "Cat.JPG" "")
                    world0)) = 200%nat
  /\ status_of (fst (predict_image (Some yolo) env_ok (mkUploadFile "README" "")
                       world0)) = 400%nat.
Proof.
  split.
  - rewrite <- (proj1 (extension_check_case_insensitive
                         yolo env_ok "Cat.JPG" "" world0)).
    reflexivity.
  - rewrite (proj2 (proj2 (extension_check_case_insensitive
                             yolo env_ok "README" "" world0)) eq_refl).
    reflexivity.
Defined.

Example upper_case_extensions_accepted :
  map (fun n => status_of (fst (predict_image (Some yolo) env_ok
                                  (mkUploadFile n "") world0)))
      ["a.JPG"; "a.Jpeg"; "a.PNG"; "a.jpg"; "a.jpeg"; "a.png"]
  = [200; 200; 200; 200; 200; 200]%nat.
Proof. reflexivity. Qed.

Example odd_names_rejected :
  map (fun n => status_of (fst (predict_image (Some yolo) env_ok
                                  (mkUploadFile n "") world0)))
      ["README"; ".png"; "a.png/b"; "a.gif"; "a.png.txt"; ""]
  = [400; 400; 400; 400; 400; 400]%nat.
Proof. reflexivity. Qed.

(* ================================================================== *)
(** ** Error propagation (C3) *)
(* ================================================================== *)

(** Whatever [run_detection] raises reaches the caller of the endpoint
    unchanged: same status code, same detail. *)
Lemma inference_error_passed_through
    (m : Model) (env : Env) (file : UploadFile) (w : World)
    (e : Exn) (w' : World) :
  in_set (file_ext_of (filename file)) allowed_extensions = true ->
  write_fault env (request_input_path env file w) = None ->
  run_detection (Some m) env (request_input_path env file w)
    (world_after_write (request_input_path env file w) w) = (inl e, w') ->
  fst (predict_image (Some m) env file w) = inl e.
Proof.
  intros Hext Hw Hrun.
  rewrite (predict_image_eq env m file w Hext Hw), Hrun. cbn [fst].
  destruct (run_detection_raises_500 env _ _ _ _ _ Hrun) as [detail ->].
  reflexivity.
Qed.

(** Every failure of inference is answered 500. *)
Lemma inference_failure_is_500
    (m : Model) (env : Env) (file : UploadFile) (w : World)
    (e : Exn) (w' : World) :
  in_set (file_ext_of (filename file)) allowed_extensions = true ->
  write_fault env (request_input_path env file w) = None ->
  run_detection (Some m) env (request_input_path env file w)
    (world_after_write (request_input_path env file w) w) = (inl e, w') ->
  status_of (fst (predict_image (Some m) env file w)) = 500%nat.
Proof.
  intros Hext Hw Hrun.
  rewrite (inference_error_passed_through m env file w e w' Hext Hw Hrun).
  destruct (run_detection_raises_500 env _ _ _ _ _ Hrun) as [detail ->].
  reflexivity.
Qed.

(** An exception of [model.predict] is answered with its own text in the
    detail, for every model whose [predict] raises. *)
Lemma predict_exception_detail
    (m : Model) (env : Env) (file : UploadFile) (w : World)
    (text : string) (f1 : FS) :
  in_set (file_ext_of (filename file)) allowed_extensions = true ->
  write_fault env (request_input_path env file w) = None ->
  makedirs_fault env
    (output_subdir_of
       (uuid4 env
          (draws (world_after_write (request_input_path env file w) w))))
  = None ->
  predict m
    (predict_call_of env (request_input_path env file w)
       (world_after_write (request_input_path env file w) w))
    (fs_after_makedirs env
       (world_after_write (request_input_path env file w) w))
  = (inl text, f1) ->
  fst (predict_image (Some m) env file w)
  = inl (HTTPException 500 (detail_inference_prefix ++ text)).
Proof.
  intros Hext Hw Hmk Hp.
  rewrite (predict_image_eq env m file w Hext Hw).
  rewrite (run_detection_eq env m _ _ _ _ Hmk Hp). reflexivity.
Qed.

(** C3 (the code at the failing input): [model.predict] raises
    [Exception("boom")]; the caller receives a 500 whose detail is the
    inference prefix followed by the text of that exception, not a generic
    message. *)
Theorem predict_exception_text_reaches_caller :
  fst (predict_image (Some (yolo_raising "boom")) env_ok cat_png world0)
  = inl (HTTPException 500 (detail_inference_prefix ++ "boom"))
  /\ (forall detail,
        detail_of
          (fst (predict_image (Some (yolo_raising "boom")) env_ok cat_png
                  world0)) = Some detail ->
        contains detail "boom" = true).
Proof.
  split; [reflexivity |].
  intros detail H. vm_compute in H. injection H as <-. reflexivity.
Qed.

(** The missing-output error raised inside the [try] of [run_detection] is
    itself caught there and re-worded before it leaves. *)
Example missing_output_error_rewrapped :
  fst (predict_image (Some yolo_silent) env_ok cat_png world0)
  = inl (HTTPException 500
           (detail_inference_prefix ++ "500: " ++ detail_save_failed)).
Proof. reflexivity. Qed.

(* ================================================================== *)
(** ** Locating the annotated output (C5) *)
(* ================================================================== *)

Lemma locate_output_exists (f : FS) (listable_ : bool) (d name p : string) :
  truthy d = true ->
  locate_output f listable_ d name = Some p ->
  truthy p && Fs.exists_ f p = true.
Proof.
  intros Hd. unfold locate_output.
  destruct (Fs.exists_ f (join d name)) eqn:E.
  - intros H. injection H as <-. now rewrite join_truthy, E.
  - destruct listable_; [| discriminate].
    destruct (filter is_image_name (Fs.entries f d)) as [| first l] eqn:F;
      [discriminate |].
    intros H. injection H as <-.
    rewrite join_truthy by assumption.
    rewrite entries_exist; [reflexivity | assumption |].
    assert (Hin : In first (filter is_image_name (Fs.entries f d)))
      by (rewrite F; now left).
    now apply filter_In in Hin.
Qed.

(** C5, as stated, fails: the search follows the [save_dir] the first
    result reports, not the generated subdirectory.  A model that saves
    the file at [<output_subdir>/<input name>] but returns no result is
    answered 500 although the file is there; a model that saves under a
    runs directory of its own and reports it gets that file returned
    although the generated subdirectory holds nothing to find. *)
Lemma output_search_follows_reported_save_dir :
  (Fs.exists_
     (fs (snd (run_detection (Some Reported.yolo_no_results) env_ok
                 "temp_uploads/cat.png" world0)))
     (join (output_subdir_of (uuid4 env_ok (draws world0)))
        (basename "temp_uploads/cat.png")) = true
   /\ fst (run_detection (Some Reported.yolo_no_results) env_ok
             "temp_uploads/cat.png" world0)
      = inl (HTTPException 500
               (detail_inference_prefix ++ "500: " ++ detail_save_failed)))
  /\ (locate_output
        (fs (snd (run_detection (Some Reported.yolo_runs_dir) env_ok
                    "temp_uploads/cat.png" world0)))
        true
        (output_subdir_of (uuid4 env_ok (draws world0)))
        (basename "temp_uploads/cat.png") = None
      /\ fst (run_detection (Some Reported.yolo_runs_dir) env_ok
                "temp_uploads/cat.png" world0)
         = inr "runs/detect/temp_outputs/uuid-0/cat.png").
Proof. repeat split. Qed.

(** C5 (amended): the output-location step searches the directory that
    the first result of [predict] reports as [save_dir].  The file is
    first looked for at [<save_dir>/<base name of the input path>]; if
    that path is absent and the directory can be listed, the first
    image-like entry of that directory is taken; the path found is
    returned if it exists.  When [predict] returns no result, when the
    first result has no [save_dir], or when neither step yields an
    existing file, the call fails with a 500 [HTTPException].  For a
    [save_dir] that is not the empty string, whatever the two steps find
    exists and is returned. *)
Theorem output_location
    (m : Model) (env : Env) (image_path : string) (w : World)
    (results_list : list (option string)) (f1 : FS) :
  makedirs_fault env (output_subdir_of (uuid4 env (draws w))) = None ->
  predict m (predict_call_of env image_path w) (fs_after_makedirs env w)
  = (inr results_list, f1) ->
  fst (run_detection (Some m) env image_path w)
  = match results_list with
    | Some save_dir :: _ =>
        match locate_output f1 (listable env f1 save_dir) save_dir
                (basename image_path)
        with
        | Some p =>
            if truthy p && Fs.exists_ f1 p then inr p
            else inl (HTTPException 500
                        (detail_inference_prefix
                         ++ http_str env 500 detail_save_failed))
        | None =>
            inl (HTTPException 500
                   (detail_inference_prefix
                    ++ http_str env 500 detail_save_failed))
        end
    | _ =>
        inl (HTTPException 500
               (detail_inference_prefix
                ++ http_str env 500 detail_save_failed))
    end
  /\ forall save_dir rest p,
       results_list = Some save_dir :: rest ->
       truthy save_dir = true ->
       locate_output f1 (listable env f1 save_dir) save_dir
         (basename image_path) = Some p ->
       fst (run_detection (Some m) env image_path w) = inr p.
Proof.
  intros Hmk Hp.
  rewrite (run_detection_eq env m image_path w _ f1 Hmk Hp).
  cbn [fst]. split.
  - destruct results_list as [| [save_dir |] rest]; reflexivity.
  - intros save_dir rest p -> Hd L.
    cbn [saved_path_of]. rewrite L. unfold saved_outcome.
    now rewrite (locate_output_exists _ _ _ _ _ Hd L).
Qed.

Lemma output_location_witness :
  fst (run_detection (Some (yolo_named "out.bmp")) env_ok
         "temp_uploads/cat.png" world0)
  = inr "temp_outputs/uuid-0/out.bmp".
Proof.
  apply (proj2
           (output_location (yolo_named "out.bmp") env_ok
              "temp_uploads/cat.png" world0 [Some "temp_outputs/uuid-0"]
              ["temp_uploads"; "temp_outputs"; "temp_outputs/uuid-0";
               "temp_outputs/uuid-0/out.bmp"] eq_refl eq_refl)
           "temp_outputs/uuid-0" [] "temp_outputs/uuid-0/out.bmp"
           eq_refl eq_refl eq_refl).
Defined.

Example output_location_expected_name :
  fst (run_detection (Some yolo) env_ok "temp_uploads/cat.png" world0)
  = inr "temp_outputs/uuid-0/cat.png".
Proof. reflexivity. Qed.

Example output_location_nothing_saved :
  status_of
    (fst (predict_image (Some yolo_silent) env_ok cat_png world0)) = 500%nat.
Proof. reflexivity. Qed.

(** When the model returns no result, or a first result without
    [save_dir], nothing is located and the call fails with 500. *)
Lemma no_save_dir_is_500
    (m : Model) (env : Env) (image_path : string) (w : World)
    (results_list : list (option string)) (f1 : FS) :
  makedirs_fault env (output_subdir_of (uuid4 env (draws w))) = None ->
  predict m (predict_call_of env image_path w) (fs_after_makedirs env w)
  = (inr results_list, f1) ->
  match results_list with Some _ :: _ => False | _ => True end ->
  fst (run_detection (Some m) env image_path w)
  = inl (HTTPException 500
           (detail_inference_prefix ++ http_str env 500 detail_save_failed)).
Proof.
  intros Hmk Hp Hres.
  rewrite (run_detection_eq env m image_path w _ f1 Hmk Hp).
  destruct results_list as [| [d |] rest]; [| destruct Hres |]; reflexivity.
Qed.

(* ================================================================== *)
(** ** The successful response (C6) *)
(* ================================================================== *)



(** The spec's scenario: [cat.png] in, annotated [cat.png]-named file out,
    [image/png]. *)
Example cat_png_scenario :
  fst (predict_image (Some yolo) env_ok cat_png world0)
  = inr (mkFileResponse "temp_outputs/uuid-1/uuid-0.png" "image/png").
Proof. reflexivity. Qed.

(* ================================================================== *)
(** ** The call made to the model (C7) *)
(* ================================================================== *)

Lemma exists_app (f g : FS) (q : string) :
  Fs.exists_ (f ++ g)%list q = Fs.exists_ f q || Fs.exists_ g q.
Proof. unfold Fs.exists_. apply existsb_app. Qed.

Lemma exists_add (p : string) (f : FS) (q : string) :
  Fs.exists_ (Fs.add p f) q = Fs.exists_ f q || String.eqb q p.
Proof.
  unfold Fs.add. destruct (Fs.exists_ f p) eqn:E.
  - destruct (String.eqb q p) eqn:Q; [| now rewrite orb_false_r].
    apply String.eqb_eq in Q. subst q. now rewrite E.
  - rewrite exists_app. simpl. now rewrite orb_false_r.
Qed.

Lemma exists_add_all (ps : list string) (f : FS) (q : string) :
  Fs.exists_ (Fs.add_all ps f) q
  = Fs.exists_ f q || existsb (String.eqb q) ps.
Proof.
  unfold Fs.add_all. revert f; induction ps as [| x ps IH]; intros f.
  - simpl. now rewrite orb_false_r.
  - cbn [fold_left existsb]. rewrite IH, exists_add. now rewrite orb_assoc.
Qed.

Lemma predict_calls_app (t u : list Event) :
  predict_calls (t ++ u) = (predict_calls t ++ predict_calls u)%list.
Proof. unfold predict_calls. now rewrite flat_map_app. Qed.

(** With no model loaded the guard stops the call before [predict]. *)
Lemma run_detection_unloaded_never_predicts :
  List.length
    (predict_calls
       (trace (snd (run_detection None env_ok "temp_uploads/uuid-0.png"
                      world0)))) <> 1%nat.
Proof. discriminate. Qed.

(** C7, as stated, fails: in a request whose output subdirectory cannot
    be created, [run_detection] is called with the model loaded and ends
    without any call of [predict]; the request is answered 500. *)
Lemma failed_mkdir_never_predicts :
  List.length
    (predict_calls
       (trace
          (snd (run_detection (Some yolo) env_no_mkdir
                  (request_input_path env_no_mkdir cat_png world0)
                  (world_after_write
                     (request_input_path env_no_mkdir cat_png world0)
                     world0))))) <> 1%nat
  /\ predict_calls
       (trace (snd (predict_image (Some yolo) env_no_mkdir cat_png world0)))
     = []
  /\ status_of (fst (predict_image (Some yolo) env_no_mkdir cat_png world0))
     = 500%nat.
Proof. repeat split. discriminate. Qed.

(** C7 (amended): every call of [run_detection] made with a model loaded,
    in which creating the output subdirectory does not fail, records
    exactly two effects, in this order: it creates the subdirectory
    [temp_outputs/<id>] for the identifier [<id>] it has just drawn, and
    then calls [predict] once, with the image path, [save=True],
    [conf=0.5], [project=temp_outputs], [name=<id>] and [exist_ok=True].
    The call of [predict] runs on the filesystem left by the creation, in
    which the subdirectory exists, and the filesystem after the call is
    the one [predict] left.  The identifier is the next of the supply,
    which the call advances by one, and no other draw of a supply that
    never repeats names the same subdirectory. *)
Theorem run_detection_predicts_once
    (m : Model) (env : Env) (image_path : string) (w : World) :
  makedirs_fault env (output_subdir_of (uuid4 env (draws w))) = None ->
  trace (snd (run_detection (Some m) env image_path w))
  = (trace w
     ++ [EvMakedirs (join TEMP_OUTPUT_DIR (uuid4 env (draws w)));
         EvPredict
           (mkPredictCall image_path true CONF_THRESHOLD TEMP_OUTPUT_DIR
              (uuid4 env (draws w)) true)])%list
  /\ predict_calls (trace (snd (run_detection (Some m) env image_path w)))
     = (predict_calls (trace w)
        ++ [mkPredictCall image_path true CONF_THRESHOLD TEMP_OUTPUT_DIR
              (uuid4 env (draws w)) true])%list
  /\ CONF_THRESHOLD == 1 # 2
  /\ Fs.exists_
       (Fs.add_all
          (Fs.ancestors (join TEMP_OUTPUT_DIR (uuid4 env (draws w)))
           ++ [join TEMP_OUTPUT_DIR (uuid4 env (draws w))])
          (fs w))
       (join TEMP_OUTPUT_DIR (uuid4 env (draws w))) = true
  /\ fs (snd (run_detection (Some m) env image_path w))
     = snd (predict m
              (mkPredictCall image_path true CONF_THRESHOLD TEMP_OUTPUT_DIR
                 (uuid4 env (draws w)) true)
              (Fs.add_all
                 (Fs.ancestors (join TEMP_OUTPUT_DIR (uuid4 env (draws w)))
                  ++ [join TEMP_OUTPUT_DIR (uuid4 env (draws w))])
                 (fs w)))
  /\ draws (snd (run_detection (Some m) env image_path w)) = S (draws w)
  /\ ((forall i j, uuid4 env i = uuid4 env j -> i = j) ->
      forall n, n <> draws w ->
        join TEMP_OUTPUT_DIR (uuid4 env n)
        <> join TEMP_OUTPUT_DIR (uuid4 env (draws w))).
Proof.
  intros Hmk.
  destruct (predict m (predict_call_of env image_path w)
              (fs_after_makedirs env w)) as [r f1] eqn:Hp.
  rewrite (run_detection_eq env m image_path w r f1 Hmk Hp).
  cbn [snd trace draws fs].
  split; [| split; [| split; [| split; [| split; [| split]]]]].
  - reflexivity.
  - rewrite predict_calls_app. reflexivity.
  - reflexivity.
  - rewrite exists_add_all, existsb_app. cbn [existsb].
    rewrite String.eqb_refl. now rewrite !orb_true_r.
  - change (f1 = snd (predict m (predict_call_of env image_path w)
                        (fs_after_makedirs env w))).
    now rewrite Hp.
  - reflexivity.
  - intros Hinj n Hn E. apply Hn, Hinj.
    apply (join_temp_inj TEMP_OUTPUT_DIR); [now right | assumption].
Qed.

Lemma run_detection_predicts_once_witness :
  trace (snd (run_detection (Some yolo) env_ok "temp_uploads/cat.png"
                world0))
  = [EvMakedirs "temp_outputs/uuid-0";
     EvPredict
       (mkPredictCall "temp_uploads/cat.png" true CONF_THRESHOLD
          "temp_outputs" "uuid-0" true)].
Proof.
  apply (proj1 (run_detection_predicts_once yolo env_ok
                  "temp_uploads/cat.png" world0 eq_refl)).
Defined.

(** Without a created subdirectory there is no call either. *)
Example run_detection_no_mkdir_never_predicts :
  predict_calls
    (trace (snd (run_detection (Some yolo) env_no_mkdir
                   "temp_uploads/cat.png" world0))) = [].
Proof. reflexivity. Qed.

(* ================================================================== *)
(** ** Distinct identifiers give distinct paths (C8) *)
(* ================================================================== *)

Lemma temp_input_path_inj (u1 u2 e1 e2 : string) :
  in_set e1 allowed_extensions = true ->
  in_set e2 allowed_extensions = true ->
  temp_input_path_of u1 e1 = temp_input_path_of u2 e2 ->
  u1 = u2 /\ e1 = e2.
Proof.
  intros H1 H2 H. unfold temp_input_path_of in H.
  apply (join_temp_inj TEMP_UPLOAD_DIR) in H; [| now left].
  apply in_set_In in H1, H2. now apply app_allowed_inj.
Qed.

Lemma output_subdir_inj (v1 v2 : string) :
  output_subdir_of v1 = output_subdir_of v2 -> v1 = v2.
Proof. apply join_temp_inj. now right. Qed.

(** C8: two requests whose generated identifiers differ get different temp
    input paths (whatever their whitelisted extensions) and different
    output subdirectories. *)
Theorem distinct_requests_distinct_paths
    (u1 u2 v1 v2 e1 e2 : string) :
  u1 <> u2 -> v1 <> v2 ->
  in_set e1 allowed_extensions = true ->
  in_set e2 allowed_extensions = true ->
  temp_input_path_of u1 e1 <> temp_input_path_of u2 e2
  /\ output_subdir_of v1 <> output_subdir_of v2.
Proof.
  intros Hu Hv H1 H2. split.
  - intros E. now apply temp_input_path_inj in E as [E _].
  - intros E. now apply output_subdir_inj in E.
Qed.

Lemma distinct_requests_distinct_paths_witness :
  temp_input_path_of "uuid-0" ".jpg" <> temp_input_path_of "uuid-2" ".jpeg"
  /\ output_subdir_of "uuid-1" <> output_subdir_of "uuid-3".
Proof.
  apply (distinct_requests_distinct_paths
           "uuid-0" "uuid-2" "uuid-1" "uuid-3" ".jpg" ".jpeg");
    (discriminate || reflexivity).
Defined.

Lemma run_detection_draws (m : Model) (env : Env) (image_path : string)
    (w : World) :
  draws (snd (run_detection (Some m) env image_path w)) = S (draws w).
Proof.
  destruct (makedirs_fault env (output_subdir_of (uuid4 env (draws w))))
    as [text |] eqn:Hmk.
  - now rewrite (run_detection_makedirs_fault env m image_path w text Hmk).
  - destruct (predict m (predict_call_of env image_path w)
                (fs_after_makedirs env w)) as [r f1] eqn:Hp.
    now rewrite (run_detection_eq env m image_path w r f1 Hmk Hp).
Qed.

Lemma cleanup_draws (env : Env) (p : string) (w : World) :
  draws (world_after_cleanup env p w) = draws w.
Proof. unfold world_after_cleanup. now destruct (Fs.exists_ _ _). Qed.

(** A served request draws two identifiers: one for the temp input, the
    next for the output subdirectory. *)
Lemma predict_image_draws (m : Model) (env : Env) (file : UploadFile)
    (w : World) :
  in_set (file_ext_of (filename file)) allowed_extensions = true ->
  write_fault env (request_input_path env file w) = None ->
  draws (snd (predict_image (Some m) env file w)) = S (S (draws w)).
Proof.
  intros Hext Hw. rewrite (predict_image_eq env m file w Hext Hw).
  cbn [snd]. now rewrite cleanup_draws, run_detection_draws.
Qed.

(** X8: two requests served one after the other, with an injective supply
    of identifiers: the second gets a temp input path and an output
    subdirectory different from those of the first. *)
Lemma sequential_requests_distinct_paths
    (m : Model) (env : Env) (file1 file2 : UploadFile) (w : World) :
  (forall i j, uuid4 env i = uuid4 env j -> i = j) ->
  in_set (file_ext_of (filename file1)) allowed_extensions = true ->
  in_set (file_ext_of (filename file2)) allowed_extensions = true ->
  write_fault env (request_input_path env file1 w) = None ->
  request_input_path env file2 (snd (predict_image (Some m) env file1 w))
  <> request_input_path env file1 w
  /\ output_subdir_of
       (uuid4 env (S (draws (snd (predict_image (Some m) env file1 w)))))
     <> output_subdir_of (uuid4 env (S (draws w))).
Proof.
  intros Hinj H1 H2 Hw. unfold request_input_path.
  rewrite (predict_image_draws m env file1 w H1 Hw). split.
  - intros E. apply temp_input_path_inj in E as [E _]; try assumption.
    apply Hinj in E. lia.
  - intros E. apply output_subdir_inj, Hinj in E. lia.
Qed.

(* ================================================================== *)
(** ** The fallback search accepts more than the upload check (C10) *)
(* ================================================================== *)






(* ================================================================== *)
(** ** What one request does and leaves behind *)
(* ================================================================== *)

Lemma exists_filter (g : string -> bool) (f : FS) (q : string) :
  Fs.exists_ (filter g f) q = Fs.exists_ f q && g q.
Proof.
  unfold Fs.exists_. induction f as [| x f IH]; [reflexivity |].
  simpl. destruct (g x) eqn:Gx; simpl; rewrite IH.
  - destruct (String.eqb q x) eqn:E; [| reflexivity].
    apply String.eqb_eq in E. subst x. now rewrite Gx.
  - destruct (String.eqb q x) eqn:E; [| reflexivity].
    apply String.eqb_eq in E. subst x. rewrite Gx.
    now rewrite andb_false_r.
Qed.

Lemma exists_remove_other (p q : string) (f : FS) :
  q <> p -> Fs.exists_ (Fs.remove p f) q = Fs.exists_ f q.
Proof.
  intros H. unfold Fs.remove. rewrite exists_filter.
  destruct (String.eqb p q) eqn:E.
  - apply String.eqb_eq in E. congruence.
  - now rewrite andb_true_r.
Qed.

Lemma cleanup_keeps_others (env : Env) (p q : string) (w : World) :
  q <> p ->
  Fs.exists_ (fs (world_after_cleanup env p w)) q = Fs.exists_ (fs w) q.
Proof.
  intros H. unfold world_after_cleanup.
  destruct (Fs.exists_ (fs w) p); [| reflexivity].
  cbn [fs]. destruct (remove_fault env p); [reflexivity |].
  now apply exists_remove_other.
Qed.

(** The events of one call of [run_detection] with a model loaded. *)
Lemma run_detection_trace (m : Model) (env : Env) (image_path : string)
    (w : World) :
  trace (snd (run_detection (Some m) env image_path w))
  = (trace w
     ++ EvMakedirs (output_subdir_of (uuid4 env (draws w)))
        :: match makedirs_fault env (output_subdir_of (uuid4 env (draws w)))
           with
           | None => [EvPredict (predict_call_of env image_path w)]
           | Some _ => []
           end)%list.
Proof.
  destruct (makedirs_fault env (output_subdir_of (uuid4 env (draws w))))
    as [text |] eqn:Hmk.
  - now rewrite (run_detection_makedirs_fault env m image_path w text Hmk).
  - destruct (predict m (predict_call_of env image_path w)
                (fs_after_makedirs env w)) as [r f1] eqn:Hp.
    now rewrite (run_detection_eq env m image_path w r f1 Hmk Hp).
Qed.

Lemma cleanup_trace (env : Env) (p : string) (w : World) :
  trace (world_after_cleanup env p w)
  = (trace w ++ if Fs.exists_ (fs w) p then [EvRemove p] else [])%list.
Proof.
  unfold world_after_cleanup.
  destruct (Fs.exists_ (fs w) p); [reflexivity |].
  now rewrite app_nil_r.
Qed.

(** X1: every request ends with status 200, 400, 500 or 503; no exception
    other than an [HTTPException] leaves the handler. *)
Theorem request_status_is_one_of_four
    (model : option Model) (env : Env) (file : UploadFile) (w : World) :
  In (status_of (fst (predict_image model env file w)))
     [200; 400; 500; 503]%nat
  /\ forall text, fst (predict_image model env file w) <> inl (PyException text).
Proof.
  destruct model as [m |].
  2:{ split; [simpl; tauto | discriminate]. }
  destruct (in_set (file_ext_of (filename file)) allowed_extensions) eqn:Hext.
  2:{ rewrite (predict_image_bad_ext env m file w Hext).
      split; [simpl; tauto | discriminate]. }
  destruct (write_fault env (request_input_path env file w))
    as [[created text] |] eqn:Hw.
  { rewrite (predict_image_write_fault env m file w created text Hext Hw).
    split; [simpl; tauto | discriminate]. }
  rewrite (predict_image_eq env m file w Hext Hw). cbn [fst].
  destruct (run_detection (Some m) env _ _) as [r w3] eqn:Hrun. cbn [fst].
  destruct r as [e | result_image_path].
  - destruct (run_detection_raises_500 env _ _ _ _ _ Hrun) as [detail ->].
    split; [simpl; tauto | discriminate].
  - unfold response_of.
    destruct (response_fault env result_image_path);
      (split; [simpl; tauto | discriminate]).
Qed.

(** X2: when writing the upload fails, the request is answered 500 with
    the fixed upload message; the model is not called and nothing is
    removed, so a file that [open] had created stays, and otherwise the
    filesystem is as before. *)
Theorem failed_upload_write
    (m : Model) (env : Env) (file : UploadFile) (w : World)
    (created : bool) (text : string) :
  in_set (file_ext_of (filename file)) allowed_extensions = true ->
  write_fault env (request_input_path env file w) = Some (created, text) ->
  fst (predict_image (Some m) env file w)
  = inl (HTTPException 500 detail_upload_failed)
  /\ predict_calls (trace (snd (predict_image (Some m) env file w)))
     = predict_calls (trace w)
  /\ removed_paths (trace (snd (predict_image (Some m) env file w)))
     = removed_paths (trace w)
  /\ (if created
      then Fs.exists_ (fs (snd (predict_image (Some m) env file w)))
             (request_input_path env file w) = true
      else fs (snd (predict_image (Some m) env file w)) = fs w).
Proof.
  intros Hext Hw.
  rewrite (predict_image_write_fault env m file w created text Hext Hw).
  cbn [fst snd trace fs]. repeat split.
  - unfold predict_calls. rewrite flat_map_app. simpl. apply app_nil_r.
  - unfold removed_paths. rewrite flat_map_app. simpl. apply app_nil_r.
  - destruct created; [| reflexivity].
    rewrite exists_add, String.eqb_refl. apply orb_true_r.
Qed.

Lemma failed_upload_write_witness :
  fst (predict_image (Some Scenario.yolo) Scenario.env_disk_full
         Scenario.cat_png Scenario.world0)
  = inl (HTTPException 500 detail_upload_failed).
Proof.
  apply (failed_upload_write Scenario.yolo Scenario.env_disk_full
           Scenario.cat_png Scenario.world0 true
           "[Errno 28] No space left on device"); reflexivity.
Defined.

(** X3: when the output subdirectory cannot be created, the request is
    answered 500 with the text of that failure after the inference prefix;
    the model is not called, and the temp input file is removed when the
    removal is not refused. *)
Theorem failed_makedirs
    (m : Model) (env : Env) (file : UploadFile) (w : World) (text : string) :
  in_set (file_ext_of (filename file)) allowed_extensions = true ->
  write_fault env (request_input_path env file w) = None ->
  makedirs_fault env (output_subdir_of (uuid4 env (S (draws w)))) = Some text ->
  remove_fault env (request_input_path env file w) = None ->
  fst (predict_image (Some m) env file w)
  = inl (HTTPException 500 (detail_inference_prefix ++ text))
  /\ predict_calls (trace (snd (predict_image (Some m) env file w)))
     = predict_calls (trace w)
  /\ Fs.exists_ (fs (snd (predict_image (Some m) env file w)))
       (request_input_path env file w) = false.
Proof.
  intros Hext Hw Hmk Hrm.
  rewrite (predict_image_eq env m file w Hext Hw). cbn [fst snd].
  split; [| split].
  - now rewrite (run_detection_makedirs_fault env m _
                   (world_after_write (request_input_path env file w) w)
                   text Hmk).
  - rewrite cleanup_trace, run_detection_trace.
    cbn [draws world_after_write]. rewrite Hmk.
    rewrite !predict_calls_app. cbn [trace world_after_write].
    rewrite predict_calls_app.
    destruct (Fs.exists_ _ _); simpl; now rewrite !app_nil_r.
  - now apply cleanup_removes.
Qed.

Lemma failed_makedirs_witness :
  fst (predict_image (Some yolo) env_no_mkdir cat_png world0)
  = inl (HTTPException 500
           (detail_inference_prefix ++ "[Errno 13] Permission denied")).
Proof.
  apply (failed_makedirs yolo env_no_mkdir cat_png world0
           "[Errno 13] Permission denied"); reflexivity.
Defined.

(** X4: when the file named like the input is absent from the reported
    [save_dir] and that directory cannot be listed, the failure of the
    listing is dropped: [run_detection] fails with the missing-output
    error, not with the listing's. *)
Theorem failed_scan_is_missing_output
    (m : Model) (env : Env) (image_path : string) (w : World)
    (save_dir : string) (rest : list (option string)) (f1 : FS) :
  makedirs_fault env (output_subdir_of (uuid4 env (draws w))) = None ->
  predict m (predict_call_of env image_path w) (fs_after_makedirs env w)
  = (inr (Some save_dir :: rest), f1) ->
  Fs.exists_ f1 (join save_dir (basename image_path)) = false ->
  listable env f1 save_dir = false ->
  fst (run_detection (Some m) env image_path w)
  = inl (HTTPException 500
           (detail_inference_prefix ++ http_str env 500 detail_save_failed)).
Proof.
  intros Hmk Hp Hex Hls.
  rewrite (run_detection_eq env m image_path w _ f1 Hmk Hp).
  cbn [fst saved_path_of]. unfold locate_output. now rewrite Hex, Hls.
Qed.

Lemma failed_scan_is_missing_output_witness :
  fst (run_detection
         (Some (mkModel (fun _ f => (inr [Some "elsewhere"], f))))
         env_ok "temp_uploads/cat.png" world0)
  = inl (HTTPException 500
           (detail_inference_prefix ++ "500: " ++ detail_save_failed)).
Proof.
  apply (failed_scan_is_missing_output
           (mkModel (fun _ f => (inr [Some "elsewhere"], f)))
           env_ok "temp_uploads/cat.png" world0 "elsewhere" []
           (fs_after_makedirs env_ok world0)); reflexivity.
Defined.

(** X5: a request only adds to the trace, and what it adds is confined:
    every write and every removal targets the request's own temp input
    path, and the model is called at most once, on that path, with
    [save=True] under [temp_outputs]. *)
Theorem request_effects_confined
    (model : option Model) (env : Env) (file : UploadFile) (w : World) :
  exists events,
    trace (snd (predict_image model env file w)) = (trace w ++ events)%list
    /\ (forall q, In q (written_paths events) ->
          q = request_input_path env file w)
    /\ (forall q, In q (removed_paths events) ->
          q = request_input_path env file w)
    /\ (List.length (predict_calls events) <= 1)%nat
    /\ (forall call, In call (predict_calls events) ->
          pc_source call = request_input_path env file w
          /\ pc_save call = true
          /\ pc_project call = TEMP_OUTPUT_DIR).
Proof.
  assert (Hnil : exists events,
             trace w = (trace w ++ events)%list
             /\ (forall q, In q (written_paths events) ->
                   q = request_input_path env file w)
             /\ (forall q, In q (removed_paths events) ->
                   q = request_input_path env file w)
             /\ (List.length (predict_calls events) <= 1)%nat
             /\ (forall call, In call (predict_calls events) ->
                   pc_source call = request_input_path env file w
                   /\ pc_save call = true
                   /\ pc_project call = TEMP_OUTPUT_DIR)).
  { exists []. rewrite app_nil_r. simpl. repeat split; (tauto || lia). }
  destruct model as [m |]; [| exact Hnil].
  destruct (in_set (file_ext_of (filename file)) allowed_extensions) eqn:Hext.
  2:{ now rewrite (predict_image_bad_ext env m file w Hext). }
  clear Hnil.
  destruct (write_fault env (request_input_path env file w))
    as [[created text] |] eqn:Hw.
  { rewrite (predict_image_write_fault env m file w created text Hext Hw).
    exists [EvWrite (request_input_path env file w)]. cbn [snd trace].
    simpl. repeat split; try (tauto || lia).
    intros q [<- | []]. reflexivity. }
  rewrite (predict_image_eq env m file w Hext Hw). cbn [snd].
  rewrite cleanup_trace, run_detection_trace.
  cbn [trace world_after_write].
  set (p := request_input_path env file w).
  set (w2 := world_after_write p w).
  set (rm := if Fs.exists_ _ p then [EvRemove p] else []).
  exists ([EvWrite p]
          ++ EvMakedirs (output_subdir_of (uuid4 env (draws w2)))
             :: match makedirs_fault env
                        (output_subdir_of (uuid4 env (draws w2))) with
                | None => [EvPredict (predict_call_of env p w2)]
                | Some _ => []
                end
          ++ rm)%list.
  split.
  { now rewrite <- !app_assoc. }
  subst rm.
  destruct (makedirs_fault env _); destruct (Fs.exists_ _ p); simpl;
    repeat split; try (tauto || lia);
    try (intros q [<- | []]; reflexivity);
    try (intros call [<- | []]; repeat split; reflexivity);
    match goal with
    | H : _ \/ False |- _ => destruct H as [<- | []]; reflexivity
    end.
Qed.

(** X6: the handler does not delete the annotated output.  After a
    successful request the file named in the response exists, unless it is
    the temp input file itself. *)
Theorem returned_file_kept
    (model : option Model) (env : Env) (file : UploadFile) (w : World)
    (resp : FileResponse) (w' : World) :
  predict_image model env file w = (inr resp, w') ->
  path resp <> request_input_path env file w ->
  Fs.exists_ (fs w') (path resp) = true.
Proof.
  destruct model as [m |]; [| discriminate].
  destruct (in_set (file_ext_of (filename file)) allowed_extensions) eqn:Hext.
  2:{ rewrite (predict_image_bad_ext env m file w Hext). discriminate. }
  destruct (write_fault env (request_input_path env file w))
    as [[created text] |] eqn:Hw.
  { rewrite (predict_image_write_fault env m file w created text Hext Hw).
    discriminate. }
  rewrite (predict_image_eq env m file w Hext Hw).
  destruct (run_detection (Some m) env _ _) as [r w3] eqn:Hrun.
  cbn [fst snd].
  destruct r as [[status_code detail | text] | result_image_path];
    try discriminate.
  unfold response_of.
  destruct (response_fault env result_image_path); [discriminate |].
  intros H Hneq. injection H as <- <-. cbn [path] in *.
  rewrite cleanup_keeps_others by assumption.
  exact (run_detection_returns_existing env _ _ _ _ _ Hrun).
Qed.

Lemma returned_file_kept_witness :
  Fs.exists_ (fs (snd (predict_image (Some yolo) env_ok cat_png world0)))
    "temp_outputs/uuid-1/uuid-0.png" = true.
Proof.
  apply (returned_file_kept (Some yolo) env_ok cat_png world0
           (mkFileResponse "temp_outputs/uuid-1/uuid-0.png" "image/png")
           (snd (predict_image (Some yolo) env_ok cat_png world0)));
    [reflexivity | discriminate].
Defined.

(** The excluded case happens: a model that reports the upload directory
    as its [save_dir] makes the handler answer 200 with the temp input
    file, which the cleanup has already removed. *)
Example returned_file_is_removed_input :
  fst (predict_image (Some Shutdown.yolo_in_place) env_ok cat_png world0)
  = inr (mkFileResponse "temp_uploads/uuid-0.png" "image/png")
  /\ Fs.exists_
       (fs (snd (predict_image (Some Shutdown.yolo_in_place) env_ok cat_png
                   world0)))
       "temp_uploads/uuid-0.png" = false.
Proof. split; reflexivity. Qed.

(** X7: a request draws no identifier when it is rejected by the model or
    extension check, one when writing the upload fails, and two when it
    reaches inference. *)
Theorem identifiers_drawn_per_request
    (model : option Model) (env : Env) (file : UploadFile) (w : World) :
  draws (snd (predict_image model env file w))
  = (draws w + identifiers_drawn model env file w)%nat.
Proof.
  unfold identifiers_drawn.
  destruct model as [m |]; [| simpl; lia].
  destruct (in_set (file_ext_of (filename file)) allowed_extensions) eqn:Hext.
  2:{ rewrite (predict_image_bad_ext env m file w Hext). simpl. lia. }
  destruct (write_fault env (request_input_path env file w))
    as [[created text] |] eqn:Hw.
  - rewrite (predict_image_write_fault env m file w created text Hext Hw).
    simpl. lia.
  - rewrite (predict_image_eq env m file w Hext Hw). cbn [snd].
    rewrite cleanup_draws, run_detection_draws. simpl. lia.
Qed.

Lemma to_uint_nonnil (n : nat) : Nat.to_uint n <> Decimal.Nil.
Proof.
  intros H. pose proof (DecimalNat.Unsigned.of_to n) as E.
  rewrite H in E. simpl in E. subst n. discriminate H.
Qed.

(** The identifier supply of the examples never repeats. *)
Lemma env_ok_uuid4_inj (i j : nat) :
  uuid4 env_ok i = uuid4 env_ok j -> i = j.
Proof.
  cbn [uuid4 env_ok]. intros H. apply app_inv_head in H.
  apply (f_equal NilZero.uint_of_string) in H.
  rewrite !NilZero.usu in H by apply to_uint_nonnil.
  injection H as H. now apply DecimalNat.Unsigned.to_uint_inj.
Qed.

Lemma sequential_requests_distinct_paths_witness :
  request_input_path env_ok (mkUploadFile "dog.JPG" "")
    (snd (predict_image (Some yolo) env_ok cat_png world0))
  <> request_input_path env_ok cat_png world0
  /\ output_subdir_of
       (uuid4 env_ok
          (S (draws (snd (predict_image (Some yolo) env_ok cat_png world0)))))
     <> output_subdir_of (uuid4 env_ok (S (draws world0))).
Proof.
  apply (sequential_requests_distinct_paths yolo env_ok cat_png
           (mkUploadFile "dog.JPG" "") world0 env_ok_uuid4_inj);
    reflexivity.
Defined.

(** X19: a path [run_detection] returns exists and lies in the
    [save_dir] the model reported: it is the file named like the input,
    or, when that one is absent, an image-like entry of the directory. *)
Theorem returned_path_in_save_dir
    (m : Model) (env : Env) (image_path : string) (w : World)
    (save_dir : string) (rest : list (option string)) (f1 : FS)
    (p : string) (w' : World) :
  makedirs_fault env (output_subdir_of (uuid4 env (draws w))) = None ->
  predict m (predict_call_of env image_path w) (fs_after_makedirs env w)
  = (inr (Some save_dir :: rest), f1) ->
  run_detection (Some m) env image_path w = (inr p, w') ->
  Fs.exists_ f1 p = true
  /\ (p = join save_dir (basename image_path)
      \/ (Fs.exists_ f1 (join save_dir (basename image_path)) = false
          /\ exists n, In n (Fs.entries f1 save_dir)
                       /\ is_image_name n = true
                       /\ p = join save_dir n)).
Proof.
  intros Hmk Hp.
  rewrite (run_detection_eq env m image_path w _ f1 Hmk Hp).
  cbn [saved_path_of]. unfold saved_outcome, locate_output.
  destruct (Fs.exists_ f1 (join save_dir (basename image_path))) eqn:E.
  - destruct (truthy _ && _) eqn:T; [| discriminate].
    intros H. injection H as <- _. split; [exact E | now left].
  - destruct (listable env f1 save_dir); [| discriminate].
    destruct (filter is_image_name (Fs.entries f1 save_dir))
      as [| first l] eqn:F; [discriminate |].
    destruct (truthy _ && _) eqn:T; [| discriminate].
    intros H. injection H as <- _.
    apply andb_true_iff in T as [_ T]. split; [exact T |].
    right. split; [reflexivity |]. exists first.
    assert (Hin : In first (filter is_image_name (Fs.entries f1 save_dir)))
      by (rewrite F; now left).
    apply filter_In in Hin as [Hin Himg]. now repeat split.
Qed.

Lemma returned_path_in_save_dir_witness :
  Fs.exists_
    ["temp_uploads"; "temp_outputs"; "temp_outputs/uuid-0";
     "temp_outputs/uuid-0/out.bmp"] "temp_outputs/uuid-0/out.bmp" = true.
Proof.
  apply (proj1 (returned_path_in_save_dir (yolo_named "out.bmp") env_ok
                  "temp_uploads/cat.png" world0 "temp_outputs/uuid-0" []
                  ["temp_uploads"; "temp_outputs"; "temp_outputs/uuid-0";
                   "temp_outputs/uuid-0/out.bmp"]
                  "temp_outputs/uuid-0/out.bmp"
                  (snd (run_detection (Some (yolo_named "out.bmp")) env_ok
                          "temp_uploads/cat.png" world0))
                  eq_refl eq_refl eq_refl)).
Defined.

(** X20: the model is only ever called on a filesystem that holds the temp
    input file and the created output subdirectory.  Two models that agree
    on every call made in such a filesystem are indistinguishable to the
    handler. *)
Theorem model_called_with_input_present
    (m m' : Model) (env : Env) (file : UploadFile) (w : World) :
  (forall call f,
      Fs.exists_ f (pc_source call) = true ->
      Fs.exists_ f (join (pc_project call) (pc_name call)) = true ->
      predict m call f = predict m' call f) ->
  predict_image (Some m) env file w = predict_image (Some m') env file w.
Proof.
  intros Hagree.
  destruct (in_set (file_ext_of (filename file)) allowed_extensions) eqn:Hext.
  2:{ now rewrite !predict_image_bad_ext. }
  destruct (write_fault env (request_input_path env file w))
    as [[created text] |] eqn:Hw.
  { now rewrite !(predict_image_write_fault env _ file w created text). }
  rewrite !predict_image_eq by assumption.
  set (p := request_input_path env file w).
  set (w2 := world_after_write p w).
  assert (R : run_detection (Some m) env p w2
              = run_detection (Some m') env p w2).
  { destruct (makedirs_fault env (output_subdir_of (uuid4 env (draws w2))))
      as [text |] eqn:Hmk.
    - now rewrite !(run_detection_makedirs_fault env _ p w2 text Hmk).
    - destruct (predict m (predict_call_of env p w2)
                  (fs_after_makedirs env w2)) as [r f1] eqn:Hp.
      assert (Hp' : predict m' (predict_call_of env p w2)
                      (fs_after_makedirs env w2) = (r, f1)).
      { rewrite <- Hp. symmetry. apply Hagree.
        - unfold fs_after_makedirs. rewrite exists_add_all.
          subst w2. cbn [fs world_after_write pc_source predict_call_of].
          rewrite exists_add, String.eqb_refl. now rewrite orb_true_r.
        - unfold fs_after_makedirs. rewrite exists_add_all.
          cbn [pc_project pc_name predict_call_of].
          fold (output_subdir_of (uuid4 env (draws w2))).
          rewrite existsb_app. cbn [existsb].
          rewrite String.eqb_refl. now rewrite !orb_true_r. }
      now rewrite (run_detection_eq env m p w2 r f1 Hmk Hp),
        (run_detection_eq env m' p w2 r f1 Hmk Hp'). }
  now rewrite R.
Qed.

Lemma model_called_with_input_present_witness :
  predict_image (Some Shutdown.yolo_checking) env_ok cat_png world0
  = predict_image (Some yolo) env_ok cat_png world0.
Proof.
  apply (model_called_with_input_present Shutdown.yolo_checking yolo
           env_ok cat_png world0).
  intros call f H _.
  unfold Shutdown.yolo_checking. cbn [predict]. now rewrite H.
Defined.

(** X21: a refused deletion of the temp input file is not surfaced: the
    answer of a request is the same whatever [os.remove] does. *)
Theorem refused_removal_not_surfaced
    (model : option Model) (env : Env) (file : UploadFile) (w : World)
    (refuse : string -> option string) :
  fst (predict_image model (with_remove_fault refuse env) file w)
  = fst (predict_image model env file w).
Proof.
  destruct model as [m |]; [| reflexivity].
  destruct (in_set (file_ext_of (filename file)) allowed_extensions) eqn:Hext.
  2:{ now rewrite !predict_image_bad_ext. }
  destruct (write_fault env (request_input_path env file w))
    as [[created text] |] eqn:Hw.
  { rewrite (predict_image_write_fault env m file w created text Hext Hw).
    now rewrite (predict_image_write_fault (with_remove_fault refuse env)
                   m file w created text Hext Hw). }
  rewrite (predict_image_eq env m file w Hext Hw).
  rewrite (predict_image_eq (with_remove_fault refuse env) m file w Hext Hw).
  reflexivity.
Qed.

(* ================================================================== *)
(** ** Shutdown *)
(* ================================================================== *)

Lemma exists_rmtree (d : string) (f : FS) (q : string) :
  Fs.exists_ (rmtree d f) q = Fs.exists_ f q && negb (under_dir d q).
Proof. apply exists_filter. Qed.

Lemma cleanup_temp_dirs_eq (w : World) :
  cleanup_temp_dirs no_rmtree_fault w
  = (inr tt, mkWorld (fs_after_shutdown (fs w)) (draws w) (trace w)).
Proof.
  unfold cleanup_temp_dirs, shutil_rmtree, fs_after_shutdown, no_rmtree_fault.
  unfold_m. destruct w as [f n t]. cbn [fs draws trace].
  destruct (Fs.exists_ f TEMP_UPLOAD_DIR) eqn:EU; cbn [fs draws trace].
  - rewrite EU. cbn [fs draws trace].
    destruct (Fs.exists_ (rmtree TEMP_UPLOAD_DIR f) TEMP_OUTPUT_DIR) eqn:EO;
      cbn [fs draws trace]; [rewrite EO |]; reflexivity.
  - destruct (Fs.exists_ f TEMP_OUTPUT_DIR) eqn:EO;
      cbn [fs draws trace]; [rewrite EO |]; reflexivity.
Qed.

Lemma startswith_app_refl (p x : string) : startswith (p ++ x) p = true.
Proof.
  induction p as [| a p IH]; [reflexivity |].
  cbn [append startswith]. now rewrite Ascii.eqb_refl, IH.
Qed.

Lemma under_dir_app (d x : string) : under_dir d (d ++ "/" ++ x) = true.
Proof.
  unfold under_dir.
  replace (d ++ "/" ++ x) with ((d ++ String sep "") ++ x)
    by apply append_assoc.
  rewrite startswith_app_refl. apply orb_true_r.
Qed.

(** X9: a shutdown without faults leaves neither temp root; of a root that
    existed, nothing beneath it remains; and every path outside the two
    trees exists afterwards exactly if it did before. *)
Theorem shutdown_removes_temp_trees (w : World) (q : string) :
  Fs.exists_ (fs (snd (cleanup_temp_dirs no_rmtree_fault w))) TEMP_UPLOAD_DIR
  = false
  /\ Fs.exists_ (fs (snd (cleanup_temp_dirs no_rmtree_fault w)))
       TEMP_OUTPUT_DIR = false
  /\ (Fs.exists_ (fs w) TEMP_UPLOAD_DIR = true ->
      under_dir TEMP_UPLOAD_DIR q = true ->
      Fs.exists_ (fs (snd (cleanup_temp_dirs no_rmtree_fault w))) q = false)
  /\ (Fs.exists_ (fs w) TEMP_OUTPUT_DIR = true ->
      under_dir TEMP_OUTPUT_DIR q = true ->
      Fs.exists_ (fs (snd (cleanup_temp_dirs no_rmtree_fault w))) q = false)
  /\ (under_dir TEMP_UPLOAD_DIR q = false ->
      under_dir TEMP_OUTPUT_DIR q = false ->
      Fs.exists_ (fs (snd (cleanup_temp_dirs no_rmtree_fault w))) q
      = Fs.exists_ (fs w) q).
Proof.
  rewrite cleanup_temp_dirs_eq. cbn [snd fs]. unfold fs_after_shutdown.
  destruct (Fs.exists_ (fs w) TEMP_UPLOAD_DIR) eqn:EU.
  - destruct (Fs.exists_ (rmtree TEMP_UPLOAD_DIR (fs w)) TEMP_OUTPUT_DIR)
      eqn:EO; rewrite ?exists_rmtree in *; rewrite ?exists_rmtree.
    + repeat split.
      * now rewrite EU.
      * apply andb_true_iff in EO as [EO _]. now rewrite EO.
      * intros _ Hq. rewrite Hq. simpl. now rewrite andb_false_r.
      * intros _ Hq. rewrite Hq. simpl. now rewrite andb_false_r.
      * intros H1 H2. rewrite H1, H2. simpl. now rewrite !andb_true_r.
    + repeat split.
      * now rewrite EU.
      * exact EO.
      * intros _ Hq. rewrite Hq. simpl. now rewrite andb_false_r.
      * intros HO Hq. rewrite HO in EO. simpl in EO. discriminate EO.
      * intros H1 H2. rewrite H1. simpl. now rewrite andb_true_r.
  - destruct (Fs.exists_ (fs w) TEMP_OUTPUT_DIR) eqn:EO;
      rewrite ?exists_rmtree.
    + repeat split.
      * now rewrite EU.
      * now rewrite EO.
      * discriminate.
      * intros _ Hq. rewrite Hq. simpl. now rewrite andb_false_r.
      * intros H1 H2. rewrite H2. simpl. now rewrite andb_true_r.
    + repeat split; try assumption; discriminate.
Qed.

Lemma shutdown_removes_temp_trees_witness :
  Fs.exists_
    (fs (snd (cleanup_temp_dirs no_rmtree_fault
                (mkWorld Shutdown.used_fs 0 []))))
    "temp_outputs/uuid-1/uuid-0.png" = false
  /\ Fs.exists_
       (fs (snd (cleanup_temp_dirs no_rmtree_fault
                   (mkWorld Shutdown.used_fs 0 []))))
       "temp_outputs_backup/keep.png" = true.
Proof.
  split.
  - apply (proj1 (proj2 (proj2 (proj2
             (shutdown_removes_temp_trees (mkWorld Shutdown.used_fs 0 [])
                "temp_outputs/uuid-1/uuid-0.png"))))); reflexivity.
  - rewrite (proj2 (proj2 (proj2 (proj2
               (shutdown_removes_temp_trees (mkWorld Shutdown.used_fs 0 [])
                  "temp_outputs_backup/keep.png")))) eq_refl eq_refl).
    reflexivity.
Defined.

(** X10: the shutdown hook never raises, whatever [shutil.rmtree] does,
    and touches nothing but the filesystem. *)
Theorem shutdown_never_raises (fault : RmtreeFault) (w : World) :
  fst (cleanup_temp_dirs fault w) = inr tt
  /\ draws (snd (cleanup_temp_dirs fault w)) = draws w
  /\ trace (snd (cleanup_temp_dirs fault w)) = trace w.
Proof.
  unfold cleanup_temp_dirs, shutil_rmtree. unfold_m.
  destruct w as [f n t]. cbn [fs draws trace].
  destruct (Fs.exists_ f TEMP_UPLOAD_DIR) eqn:EU; cbn [fs draws trace].
  - destruct (fault TEMP_UPLOAD_DIR f) as [[left_behind text] |];
      cbn [fs draws trace]; [now repeat split |].
    rewrite EU. cbn [fs draws trace].
    destruct (Fs.exists_ (rmtree TEMP_UPLOAD_DIR f) TEMP_OUTPUT_DIR) eqn:EO;
      cbn [fs draws trace]; [| now repeat split].
    destruct (fault TEMP_OUTPUT_DIR _) as [[left_behind text] |];
      cbn [fs draws trace]; [now repeat split |].
    rewrite EO. now repeat split.
  - destruct (Fs.exists_ f TEMP_OUTPUT_DIR) eqn:EO;
      cbn [fs draws trace]; [| now repeat split].
    destruct (fault TEMP_OUTPUT_DIR f) as [[left_behind text] |];
      cbn [fs draws trace]; [now repeat split |].
    rewrite EO. now repeat split.
Qed.

(** X11: both removals share one [try]: when [temp_uploads] exists and its
    removal fails, the removal of [temp_outputs] is not attempted, and the
    filesystem is left as the failed removal left it. *)
Theorem shutdown_stops_at_first_failure
    (fault : RmtreeFault) (w : World) (left_behind : FS) (text : string) :
  Fs.exists_ (fs w) TEMP_UPLOAD_DIR = true ->
  fault TEMP_UPLOAD_DIR (fs w) = Some (left_behind, text) ->
  fs (snd (cleanup_temp_dirs fault w)) = left_behind.
Proof.
  intros EU Hf. unfold cleanup_temp_dirs, shutil_rmtree. unfold_m.
  rewrite EU. cbn [fs draws trace]. now rewrite Hf.
Qed.

Lemma shutdown_stops_at_first_failure_witness :
  fs (snd (cleanup_temp_dirs Shutdown.uploads_locked
             (mkWorld Shutdown.used_fs 0 []))) = Shutdown.used_fs.
Proof.
  apply (shutdown_stops_at_first_failure Shutdown.uploads_locked
           (mkWorld Shutdown.used_fs 0 []) Shutdown.used_fs
           "[Errno 13] Permission denied"); reflexivity.
Defined.

Lemma filter_keep (g : string -> bool) (f : FS) :
  (forall q, In q f -> g q = true) -> filter g f = f.
Proof.
  induction f as [| x f IH]; intros H; [reflexivity |].
  simpl. rewrite (H x) by now left.
  f_equal. apply IH. intros q Hq. apply H. now right.
Qed.

Lemma after_shutdown_under (f : FS) (d q : string) :
  d = TEMP_UPLOAD_DIR \/ d = TEMP_OUTPUT_DIR ->
  Fs.exists_ f d = true -> under_dir d q = true ->
  Fs.exists_ (fs_after_shutdown f) q = false.
Proof.
  intros Hd Ed Hq. unfold fs_after_shutdown.
  destruct Hd as [-> | ->].
  - rewrite Ed.
    destruct (Fs.exists_ (rmtree TEMP_UPLOAD_DIR f) TEMP_OUTPUT_DIR);
      rewrite ?exists_rmtree, Hq; simpl; now rewrite ?andb_false_r.
  - destruct (Fs.exists_ f TEMP_UPLOAD_DIR).
    + rewrite exists_rmtree, Ed. simpl.
      rewrite !exists_rmtree, Hq. simpl. now rewrite !andb_false_r.
    + rewrite Ed, exists_rmtree, Hq. simpl. now rewrite andb_false_r.
Qed.

(** X12: on a filesystem with nothing at or beneath the two temp roots,
    start-up followed by a shutdown without faults gives the filesystem
    back as it was. *)
Theorem startup_then_shutdown_restores (f : FS) (n : nat) (t : list Event) :
  (forall q, In q f ->
     under_dir TEMP_UPLOAD_DIR q = false
     /\ under_dir TEMP_OUTPUT_DIR q = false) ->
  fs (snd (cleanup_temp_dirs no_rmtree_fault (mkWorld (startup_fs f) n t)))
  = f.
Proof.
  intros H. rewrite cleanup_temp_dirs_eq. cbn [snd fs].
  assert (EU : Fs.exists_ f TEMP_UPLOAD_DIR = false).
  { destruct (Fs.exists_ f TEMP_UPLOAD_DIR) eqn:E; [| reflexivity].
    apply exists_In, H in E. destruct E as [E _]. discriminate E. }
  assert (EO : Fs.exists_ f TEMP_OUTPUT_DIR = false).
  { destruct (Fs.exists_ f TEMP_OUTPUT_DIR) eqn:E; [| reflexivity].
    apply exists_In, H in E. destruct E as [_ E]. discriminate E. }
  assert (S1 : startup_fs f = (f ++ [TEMP_UPLOAD_DIR; TEMP_OUTPUT_DIR])%list).
  { unfold startup_fs, Fs.add. rewrite EU, exists_app, EO.
    simpl. now rewrite <- app_assoc. }
  rewrite S1. unfold fs_after_shutdown.
  rewrite !exists_app, EU. simpl.
  assert (R1 : rmtree TEMP_UPLOAD_DIR
                 (f ++ [TEMP_UPLOAD_DIR; TEMP_OUTPUT_DIR])%list
               = (f ++ [TEMP_OUTPUT_DIR])%list).
  { unfold rmtree. rewrite filter_app. f_equal.
    apply filter_keep. intros q Hq. destruct (H q Hq) as [E _].
    now rewrite E. }
  rewrite R1, exists_app, EO. simpl.
  unfold rmtree. rewrite filter_app, filter_keep.
  - simpl. apply app_nil_r.
  - intros q Hq. destruct (H q Hq) as [_ E]. now rewrite E.
Qed.

Lemma startup_then_shutdown_restores_witness :
  fs (snd (cleanup_temp_dirs no_rmtree_fault
             (mkWorld (startup_fs ["app.py"; "yolov8n.pt"; "temp_uploads.bak"])
                0 [])))
  = ["app.py"; "yolov8n.pt"; "temp_uploads.bak"].
Proof.
  apply (startup_then_shutdown_restores
           ["app.py"; "yolov8n.pt"; "temp_uploads.bak"] 0 []).
  intros q Hq. simpl in Hq.
  decompose [or] Hq; subst; try contradiction; split; reflexivity.
Defined.

Lemma startswith_sep_app (s t : string) :
  startswith s (String sep "") = false ->
  startswith t (String sep "") = false ->
  startswith (s ++ t) (String sep "") = false.
Proof. destruct s as [| a s]; intros Hs Ht; [exact Ht | exact Hs]. Qed.

Lemma join_under (d a x : string) :
  startswith x (String sep "") = false ->
  under_dir d (join (d ++ "/" ++ a) x) = true.
Proof.
  intros Hx. unfold join. rewrite Hx.
  destruct (_ || _).
  - rewrite append_assoc. apply under_dir_app.
  - rewrite append_assoc. apply under_dir_app.
Qed.

(** The paths built from an identifier lie under the temp roots and are
    gone after a shutdown without faults. *)
Lemma temp_paths_swept_at_shutdown
    (w : World) (unique_id name file_ext : string) :
  startswith unique_id (String sep "") = false ->
  startswith name (String sep "") = false ->
  startswith file_ext (String sep "") = false ->
  (Fs.exists_ (fs w) TEMP_OUTPUT_DIR = true ->
   Fs.exists_ (fs (snd (cleanup_temp_dirs no_rmtree_fault w)))
     (output_subdir_of unique_id) = false
   /\ Fs.exists_ (fs (snd (cleanup_temp_dirs no_rmtree_fault w)))
        (join (output_subdir_of unique_id) name) = false)
  /\ (Fs.exists_ (fs w) TEMP_UPLOAD_DIR = true ->
      Fs.exists_ (fs (snd (cleanup_temp_dirs no_rmtree_fault w)))
        (temp_input_path_of unique_id file_ext) = false).
Proof.
  intros Hu Hn He. rewrite cleanup_temp_dirs_eq. cbn [snd fs].
  unfold output_subdir_of, temp_input_path_of.
  rewrite (join_temp TEMP_OUTPUT_DIR unique_id) by now right.
  rewrite (join_temp TEMP_UPLOAD_DIR (unique_id ++ file_ext)) by now left.
  rewrite Hu, (startswith_sep_app _ _ Hu He).
  split.
  - intros EO. split.
    + apply (after_shutdown_under _ TEMP_OUTPUT_DIR);
        [now right | assumption | apply under_dir_app].
    + apply (after_shutdown_under _ TEMP_OUTPUT_DIR);
        [now right | assumption | now apply join_under].
  - intros EU.
    apply (after_shutdown_under _ TEMP_UPLOAD_DIR);
      [now left | assumption | apply under_dir_app].
Qed.







(** A served file that the model saved under a runs directory of its own
    is still there after the shutdown; one saved under the generated
    subdirectory is gone. *)
Example served_file_outside_roots_survives :
  fst (predict_image (Some Reported.yolo_runs_dir) env_ok cat_png world0)
  = inr (mkFileResponse "runs/detect/temp_outputs/uuid-1/uuid-0.png"
           "image/png")
  /\ Fs.exists_
       (fs (snd (cleanup_temp_dirs no_rmtree_fault
                   (snd (predict_image (Some Reported.yolo_runs_dir) env_ok
                           cat_png world0)))))
       "runs/detect/temp_outputs/uuid-1/uuid-0.png" = true
  /\ Fs.exists_
       (fs (snd (cleanup_temp_dirs no_rmtree_fault
                   (snd (predict_image (Some yolo) env_ok cat_png world0)))))
       "temp_outputs/uuid-1/uuid-0.png" = false.
Proof. repeat split. Qed.

(* ================================================================== *)
(** ** The name of the temp input file *)
(* ================================================================== *)

Lemma rfind_from_absent (c : ascii) (s : string) (i : Z) :
  has_char c s = false -> rfind_from c s i = -1.
Proof.
  revert i; induction s as [| a s IH]; intros i H; [reflexivity |].
  cbn [has_char] in H. apply orb_false_iff in H as [Ha Hs].
  cbn [rfind_from]. rewrite (IH _ Hs). simpl. now rewrite Ha.
Qed.

Lemma rfind_from_last (c : ascii) (s t : string) (i : Z) :
  0 <= i -> has_char c t = false ->
  rfind_from c (s ++ String c t) i = i + Z.of_nat (String.length s).
Proof.
  intros Hi Ht. revert i Hi; induction s as [| a s IH]; intros i Hi.
  - cbn [append rfind_from String.length].
    rewrite (rfind_from_absent c t _ Ht). simpl.
    rewrite Ascii.eqb_refl. lia.
  - cbn [append rfind_from]. rewrite IH by lia.
    replace (0 <=? i + 1 + Z.of_nat (String.length s)) with true
      by (symmetry; apply Z.leb_le; lia).
    cbn [String.length]. lia.
Qed.

Lemma has_char_app (c : ascii) (s t : string) :
  has_char c (s ++ t) = has_char c s || has_char c t.
Proof.
  induction s as [| a s IH]; [reflexivity |].
  cbn [append has_char]. now rewrite IH, orb_assoc.
Qed.

Lemma take_app_length (s t : string) : take (String.length s) (s ++ t) = s.
Proof. induction s as [| a s IH]; [now destruct t | simpl; now rewrite IH]. Qed.

(** [basename] of [dir/x] is [x] when [x] has no separator. *)
Lemma basename_join (dir x : string) :
  has_char sep x = false -> basename (dir ++ "/" ++ x) = x.
Proof.
  intros Hx. unfold basename, rfind.
  change (dir ++ "/" ++ x) with (dir ++ String sep x).
  rewrite rfind_from_last by (lia || assumption).
  replace (Z.to_nat (0 + Z.of_nat (String.length dir) + 1))
    with (String.length (dir ++ "/")) by (rewrite app_length; simpl; lia).
  replace (dir ++ String sep x) with ((dir ++ "/") ++ x)
    by apply append_assoc.
  apply drop_app_length.
Qed.

(** [splitext] of [dir/stem.e] when [stem] is not empty and neither [stem]
    nor [e] holds a separator or a dot. *)
Lemma splitext_stem_ext (dir stem e : string) :
  stem <> "" ->
  has_char sep stem = false -> has_char extsep stem = false ->
  has_char sep e = false -> has_char extsep e = false ->
  splitext (dir ++ "/" ++ stem ++ "." ++ e) = (dir ++ "/" ++ stem, "." ++ e).
Proof.
  intros Hne Hss Hsd Hes Hed.
  destruct stem as [| a stem']; [congruence |]. clear Hne.
  set (stem := String a stem') in *.
  unfold splitext, rfind.
  assert (Rsep : rfind_from sep (dir ++ "/" ++ stem ++ "." ++ e) 0
                 = Z.of_nat (String.length dir)).
  { change (dir ++ "/" ++ stem ++ "." ++ e)
      with (dir ++ String sep (stem ++ "." ++ e)).
    rewrite rfind_from_last; [lia | lia |].
    rewrite has_char_app, Hss. simpl. exact Hes. }
  assert (Rdot : rfind_from extsep (dir ++ "/" ++ stem ++ "." ++ e) 0
                 = Z.of_nat (String.length (dir ++ "/" ++ stem))).
  { replace (dir ++ "/" ++ stem ++ "." ++ e)
      with ((dir ++ "/" ++ stem) ++ String extsep e).
    - rewrite rfind_from_last by (lia || assumption). lia.
    - rewrite !append_assoc. reflexivity. }
  rewrite Rsep, Rdot.
  assert (L : String.length (dir ++ "/" ++ stem)
              = (String.length dir + 1 + String.length stem)%nat).
  { rewrite !app_length. simpl. lia. }
  replace (Z.of_nat (String.length dir)
           <? Z.of_nat (String.length (dir ++ "/" ++ stem))) with true
    by (symmetry; apply Z.ltb_lt; lia).
  replace (Z.to_nat (Z.of_nat (String.length (dir ++ "/" ++ stem))
                     - (Z.of_nat (String.length dir) + 1)))
    with (S (String.length stem')) by (rewrite L; subst stem; simpl; lia).
  cbn [splitext_loop].
  assert (C : char_at (dir ++ "/" ++ stem ++ "." ++ e)
                (Z.of_nat (String.length (dir ++ "/" ++ stem))
                 - Z.of_nat (S (String.length stem')))
              = String a "").
  { unfold char_at.
    replace (Z.to_nat (Z.of_nat (String.length (dir ++ "/" ++ stem))
                       - Z.of_nat (S (String.length stem'))))
      with (String.length (dir ++ "/"))
      by (rewrite L, app_length; subst stem; simpl; lia).
    replace (dir ++ "/" ++ stem ++ "." ++ e)
      with ((dir ++ "/") ++ stem ++ "." ++ e) by apply append_assoc.
    rewrite drop_app_length. reflexivity. }
  rewrite C.
  assert (Ha : String.eqb (String a "") (String extsep "") = false).
  { cbn [String.eqb]. subst stem. cbn [has_char] in Hsd.
    apply orb_false_iff in Hsd as [Hsd _]. now rewrite Hsd. }
  rewrite Ha. cbn [negb]. rewrite Nat2Z.id.
  replace (dir ++ "/" ++ stem ++ "." ++ e)
    with ((dir ++ "/" ++ stem) ++ "." ++ e)
    by (rewrite !append_assoc; reflexivity).
  now rewrite take_app_length, drop_app_length.
Qed.

(** X14: the temp input file keeps the upload's extension.  For an
    identifier that is not empty and holds neither separator nor dot (as
    every UUID string), the temp input path is [temp_uploads/<id><ext>]:
    its base name, the name the model saves under, is [<id><ext>], and its
    extension, lower-cased, is again the whitelisted [<ext>]. *)
Theorem temp_input_keeps_extension (unique_id file_ext : string) :
  unique_id <> "" ->
  has_char sep unique_id = false ->
  has_char extsep unique_id = false ->
  in_set file_ext allowed_extensions = true ->
  temp_input_path_of unique_id file_ext
  = "temp_uploads/" ++ unique_id ++ file_ext
  /\ basename (temp_input_path_of unique_id file_ext) = unique_id ++ file_ext
  /\ file_ext_of (temp_input_path_of unique_id file_ext) = file_ext.
Proof.
  intros Hne Hs Hd Hext.
  assert (P : temp_input_path_of unique_id file_ext
              = TEMP_UPLOAD_DIR ++ "/" ++ unique_id ++ file_ext).
  { unfold temp_input_path_of. rewrite join_temp by now left.
    destruct unique_id as [| a u]; [congruence |].
    cbn [has_char] in Hs. apply orb_false_iff in Hs as [Hs _].
    cbn [append startswith]. now rewrite Ascii.eqb_sym, Hs. }
  apply in_set_In in Hext. simpl in Hext.
  split; [exact P | rewrite P; split].
  - apply basename_join. rewrite has_char_app, Hs.
    decompose [or] Hext; subst; try contradiction; reflexivity.
  - unfold file_ext_of.
    decompose [or] Hext; subst; try contradiction;
      match goal with
      | |- context [unique_id ++ String ?c ?e] =>
          change (unique_id ++ String c e) with (unique_id ++ "." ++ e);
          rewrite (splitext_stem_ext TEMP_UPLOAD_DIR unique_id e)
            by (assumption || reflexivity)
      end; reflexivity.
Qed.

Lemma temp_input_keeps_extension_witness :
  basename (temp_input_path_of "3f2c-9a" ".jpeg") = "3f2c-9a" ++ ".jpeg"
  /\ file_ext_of (temp_input_path_of "3f2c-9a" ".jpeg") = ".jpeg".
Proof.
  apply (proj2 (temp_input_keeps_extension "3f2c-9a" ".jpeg"
                  ltac:(discriminate) eq_refl eq_refl eq_refl)).
Defined.

Lemma file_ext_of_dot_name (rest : string) :
  has_char sep rest = false -> has_char extsep rest = false ->
  file_ext_of ("." ++ rest) = "".
Proof.
  intros Hs Hd. unfold file_ext_of, splitext, rfind.
  rewrite (rfind_from_absent sep) by (cbn [append has_char]; now rewrite Hs).
  change ("." ++ rest) with ("" ++ String extsep rest).
  rewrite rfind_from_last by (lia || assumption).
  reflexivity.
Qed.

Lemma file_ext_of_dot_name_in_dir (dir rest : string) :
  has_char sep rest = false -> has_char extsep rest = false ->
  file_ext_of (dir ++ "/." ++ rest) = "".
Proof.
  intros Hs Hd. unfold file_ext_of, splitext, rfind.
  assert (Rsep : rfind_from sep (dir ++ "/." ++ rest) 0
                 = Z.of_nat (String.length dir)).
  { change (dir ++ "/." ++ rest) with (dir ++ String sep ("." ++ rest)).
    rewrite rfind_from_last; [lia | lia |].
    cbn [append has_char]. now rewrite Hs. }
  assert (Rdot : rfind_from extsep (dir ++ "/." ++ rest) 0
                 = Z.of_nat (String.length dir) + 1).
  { replace (dir ++ "/." ++ rest) with ((dir ++ "/") ++ String extsep rest)
      by (rewrite append_assoc; reflexivity).
    rewrite rfind_from_last by (lia || assumption).
    rewrite app_length. simpl. lia. }
  rewrite Rsep, Rdot.
  replace (Z.of_nat (String.length dir) <? Z.of_nat (String.length dir) + 1)
    with true by (symmetry; apply Z.ltb_lt; lia).
  replace (Z.to_nat (Z.of_nat (String.length dir) + 1
                     - (Z.of_nat (String.length dir) + 1)))
    with O by lia.
  reflexivity.
Qed.

(** X15: a file name whose last component starts with its only dot, such
    as [.png] or [photos/.jpg], has no extension for the check: the
    upload is rejected with 400 and leaves the world unchanged. *)
Theorem dot_names_rejected
    (m : Model) (env : Env) (dir rest body : string) (w : World) :
  has_char sep rest = false -> has_char extsep rest = false ->
  predict_image (Some m) env (mkUploadFile ("." ++ rest) body) w
  = (inl (HTTPException 400 (detail_bad_ext_prefix ++ allowed_joined env)), w)
  /\ predict_image (Some m) env (mkUploadFile (dir ++ "/." ++ rest) body) w
     = (inl (HTTPException 400 (detail_bad_ext_prefix ++ allowed_joined env)),
        w).
Proof.
  intros Hs Hd. split; apply predict_image_bad_ext; cbn [filename].
  - now rewrite file_ext_of_dot_name.
  - now rewrite file_ext_of_dot_name_in_dir.
Qed.

Lemma dot_names_rejected_witness :
  predict_image (Some yolo) env_ok (mkUploadFile ".png" "") world0
  = (inl (HTTPException 400 (detail_bad_ext_prefix ++ allowed_joined env_ok)),
     world0).
Proof.
  exact (proj1 (dot_names_rejected yolo env_ok "photos" "png" "" world0
                  eq_refl eq_refl)).
Defined.

(* ================================================================== *)
(** ** The client script *)
(* ================================================================== *)

Lemma client_detect_no_posts (libs : Client.Libs) (file : Client.UploadedFile) :
  Client.posts
    (match Client.detect libs file with
     | inr result => result
     | inl (Client.RequestException text) =>
         [Client.StError (Client.REQUEST_ERROR_PREFIX ++ text)]
     | inl (Client.OtherException text) =>
         [Client.StError (Client.ERROR_PREFIX ++ text)]
     end) = [].
Proof.
  unfold Client.detect, Client.raise_for_status.
  destruct (Client.requests_post libs _ file) as [[t | t] | response];
    try reflexivity.
  destruct (_ && _); [reflexivity |].
  destruct (Client.image_open libs _); reflexivity.
Qed.

(** X16: one run of the script sends at most one request: exactly one, to
    the fixed endpoint and carrying the selected file unchanged, when a
    file is selected, it opens as an image and the button was pressed;
    none in every other case. *)
Theorem client_posts_only_when_pressed
    (libs : Client.Libs) (uploaded_file : option Client.UploadedFile)
    (pressed : bool) :
  Client.posts (fst (Client.script libs uploaded_file pressed))
  = match uploaded_file with
    | Some file =>
        match Client.image_open libs (Client.value file) with
        | inr _ => if pressed then [(Client.API_ENDPOINT, file)] else []
        | inl _ => []
        end
    | None => []
    end.
Proof.
  unfold Client.script.
  destruct uploaded_file as [file |]; [| reflexivity].
  destruct (Client.image_open libs (Client.value file)); [reflexivity |].
  destruct pressed; [| reflexivity].
  cbn [fst]. unfold Client.posts at 1.
  rewrite !flat_map_app. fold Client.posts.
  rewrite client_detect_no_posts. reflexivity.
Qed.

(** X17: when the server answers with a status from 400 to 599, the
    script shows no result image and exactly one error, the request-error
    message carrying the text of the HTTP error. *)
Theorem client_error_status_shows_error
    (libs : Client.Libs) (file : Client.UploadedFile)
    (image : Client.Image) (response : Client.Response) :
  Client.image_open libs (Client.value file) = inr image ->
  Client.requests_post libs Client.API_ENDPOINT file = inr response ->
  (400 <= Client.status_code response < 600)%nat ->
  Client.result_images (fst (Client.script libs (Some file) true)) = []
  /\ Client.errors (fst (Client.script libs (Some file) true))
     = [Client.REQUEST_ERROR_PREFIX ++ Client.http_error_text libs response].
Proof.
  intros Hopen Hpost [Hlo Hhi].
  unfold Client.script, Client.detect, Client.raise_for_status.
  rewrite Hopen, Hpost.
  replace (400 <=? Client.status_code response)%nat with true
    by (symmetry; now apply Nat.leb_le).
  replace (Client.status_code response <? 600)%nat with true
    by (symmetry; now apply Nat.ltb_lt).
  split; reflexivity.
Qed.

Lemma client_error_status_shows_error_witness :
  Client.result_images
    (fst (Client.script
            (Client.libs_answering (Client.mkResponse 503 "IMG-out"))
            (Some Client.photo) true)) = [].
Proof.
  apply (proj1 (client_error_status_shows_error
                  (Client.libs_answering (Client.mkResponse 503 "IMG-out"))
                  Client.photo (Client.mkImage "IMG-cat")
                  (Client.mkResponse 503 "IMG-out") eq_refl eq_refl
                  ltac:(simpl; lia))).
Defined.

(** X18: a pressed run on an opened file ends in exactly one of two ways:
    one result image and no error, or one error and no result image; and a
    result image is shown only for a response whose status is outside
    400-599 and whose body opens as that image. *)
Theorem client_result_or_error
    (libs : Client.Libs) (file : Client.UploadedFile) (image : Client.Image) :
  Client.image_open libs (Client.value file) = inr image ->
  (List.length
     (Client.result_images (fst (Client.script libs (Some file) true)))
   + List.length (Client.errors (fst (Client.script libs (Some file) true)))
   = 1)%nat
  /\ forall result,
       In result
          (Client.result_images (fst (Client.script libs (Some file) true))) ->
       exists response,
         Client.requests_post libs Client.API_ENDPOINT file = inr response
         /\ ~ (400 <= Client.status_code response < 600)%nat
         /\ Client.image_open libs (Client.body response) = inr result.
Proof.
  intros Hopen.
  unfold Client.script, Client.detect, Client.raise_for_status.
  rewrite Hopen.
  destruct (Client.requests_post libs Client.API_ENDPOINT file)
    as [[t | t] | response] eqn:Hpost.
  - split; [reflexivity | intros result []].
  - split; [reflexivity | intros result []].
  - destruct ((400 <=? Client.status_code response)%nat
              && (Client.status_code response <? 600)%nat) eqn:Hst.
    + split; [reflexivity | intros result []].
    + destruct (Client.image_open libs (Client.body response))
        as [t | result_image] eqn:Hbody.
      * split; [reflexivity | intros result []].
      * split; [reflexivity |].
        intros result [<- | []]. exists response.
        repeat split; try assumption.
        intros [Hlo Hhi].
        apply Nat.leb_le in Hlo. apply Nat.ltb_lt in Hhi.
        now rewrite Hlo, Hhi in Hst.
Qed.

Lemma client_result_or_error_witness :
  (List.length
     (Client.result_images
        (fst (Client.script
                (Client.libs_answering (Client.mkResponse 200 "IMG-out"))
                (Some Client.photo) true)))
   + List.length
       (Client.errors
          (fst (Client.script
                  (Client.libs_answering (Client.mkResponse 200 "IMG-out"))
                  (Some Client.photo) true)))
   = 1)%nat.
Proof.
  apply (proj1 (client_result_or_error
                  (Client.libs_answering (Client.mkResponse 200 "IMG-out"))
                  Client.photo (Client.mkImage "IMG-cat") eq_refl)).
Defined.

Example client_offline :
  Client.errors (fst (Client.script Client.libs_offline
                        (Some Client.photo) true))
  = [Client.REQUEST_ERROR_PREFIX ++ "connection refused"].
Proof. reflexivity. Qed.

Example client_bad_body :
  Client.errors
    (fst (Client.script (Client.libs_answering (Client.mkResponse 200 "{}"))
            (Some Client.photo) true))
  = [Client.ERROR_PREFIX ++ "cannot identify image file"].
Proof. reflexivity. Qed.
